(** * BatchExplorer: the blob storage client proxy

    A shallow embedding of [BlobStorageClientProxy]
    (blob-storage-client-proxy.ts), the adapter between the application and
    the [@azure/storage-blob] SDK.

    - JavaScript values are modelled by the types the TypeScript signatures
      give them; [undefined]/[null] is [None].
    - A method of the proxy is a computation in the monad [M]: it reads the
      fields of [this], talks to the SDK, and either returns or throws.
    - The SDK is an external dependency.  Every request the proxy sends to it
      is a constructor of [SdkCall]; the SDK itself is a parameter
      ([Handler]) that answers requests against the state of the storage
      account.  [MemSdk] is an in-memory account implementing that interface:
      the proxy is run against it on concrete inputs, and where a property
      depends on what the storage service does (a blob deleted twice, a
      listing with a delimiter). *)

From Stdlib Require Import ZArith NArith.
From stdpp Require Import base option list strings sorting gmap fin_maps.

(** ** JavaScript helpers *)

Module Js.

(** Errors that reach the caller as exceptions / rejected promises. *)
Inductive Error : Type :=
| TypeError (message : string)
| RangeError (message : string)
| RestError (code : string) (statusCode : N)
| SystemError (code : string).

(** Outcome of evaluating a call: normal completion or a throw. *)
Inductive result (A : Type) : Type :=
| Ok (a : A)
| Throw (e : Error).
Global Arguments Ok {A} a.
Global Arguments Throw {A} e.

(** A string used as a condition: [undefined] and the empty string are
    falsy; a truthy string is handed to the branch taken. *)
Definition truthy (s : option string) : option string :=
  match s with
  | Some s => if String.eqb s "" then None else Some s
  | None => None
  end.

(** A boolean option used as a condition: [undefined] is falsy. *)
Definition truthy_bool (b : option bool) : bool :=
  match b with
  | Some b => b
  | None => false
  end.

(** [`${x}`]: interpolation of a possibly undefined string. *)
Definition interpolate (s : option string) : string :=
  match s with
  | Some s => s
  | None => "undefined"
  end.

(** How [Array.prototype.join] renders an element: [undefined] and [null]
    become the empty string. *)
Definition join_element (s : option string) : string :=
  match s with
  | Some s => s
  | None => ""
  end.

(** [Array.prototype.join]. *)
Fixpoint join (sep : string) (l : list (option string)) : string :=
  match l with
  | [] => ""
  | [x] => join_element x
  | x :: rest => join_element x +:+ sep +:+ join sep rest
  end.

(** An async iterator of pages: it yields pages until it is done or a page
    request fails. *)
Inductive PagedAsyncIterator (P : Type) : Type :=
| Done
| Failed (e : Error)
| Yield (page : P) (rest : PagedAsyncIterator P).
Global Arguments Done {P}.
Global Arguments Failed {P} e.
Global Arguments Yield {P} page rest.

Fixpoint of_pages {P} (ps : list P) : PagedAsyncIterator P :=
  match ps with
  | [] => Done
  | p :: ps => Yield p (of_pages ps)
  end.

(** The pages an iterator yields before it stops. *)
Fixpoint yielded {P} (it : PagedAsyncIterator P) : list P :=
  match it with
  | Yield p rest => p :: yielded rest
  | _ => []
  end.

(** The error an iterator stops with, if any. *)
Fixpoint failure {P} (it : PagedAsyncIterator P) : option Error :=
  match it with
  | Done => None
  | Failed e => Some e
  | Yield _ rest => failure rest
  end.

End Js.
Export Js.

(** ** Data model *)

Definition Token := string.
Definition Date := Z.
Definition Buffer := list Byte.byte.

(** Decoded text, a sequence of Unicode code points. *)
Definition Text := list N.

(** *** SDK objects ([@azure/storage-blob]) *)

Record StorageSharedKeyCredential := {
  accountName : string;
  accountKey : string;
}.

Record BlobServiceClient := {
  service_url : string;
  service_credential : StorageSharedKeyCredential;
}.

Record ContainerClient := {
  container_service : BlobServiceClient;
  containerName : string;
}.

Record BlockBlobClient := {
  blob_container : ContainerClient;
  blobName : string;
}.

(** [new BlobServiceClient(url, credential)] *)
Definition new_BlobServiceClient (url : string)
    (credential : StorageSharedKeyCredential) : BlobServiceClient :=
  {| service_url := url; service_credential := credential |}.

(** [BlobServiceClient.getContainerClient] *)
Definition BlobServiceClient_getContainerClient (service : BlobServiceClient)
    (container : string) : ContainerClient :=
  {| container_service := service; containerName := container |}.

(** [ContainerClient.getBlockBlobClient] *)
Definition ContainerClient_getBlockBlobClient (client : ContainerClient)
    (blob : string) : BlockBlobClient :=
  {| blob_container := client; blobName := blob |}.

(** Modelled from the spec: [StorageRequestOptions] is declared in
    [./models], which is not part of the sources; the spec calls it an
    option bag, so it is a finite map from option names to values. *)
Abbreviation StorageRequestOptions := (gmap string string).

(** Properties of a listed blob ([BlobItem.properties]). *)
Record BlobItemProperties := {
  item_contentLength : option N;
  item_contentType : option string;
  item_createdOn : option Date;
  item_lastModified : Date;
}.

Record BlobItem := {
  item_name : string;
  item_properties : BlobItemProperties;
}.

Record BlobPrefix := {
  prefix_name : string;
}.

Record BlobHierarchyListSegment := {
  blobPrefixes : list BlobPrefix;
  blobItems : list BlobItem;
}.

(** One page of [listBlobsByHierarchy(...).byPage(...)]. *)
Record ListBlobsHierarchySegmentResponse := {
  segment : BlobHierarchyListSegment;
  page_continuationToken : option Token;
}.

Record BlobGetPropertiesResponse := {
  props_contentLength : option N;
  props_contentType : option string;
  props_createdOn : option Date;
  props_lastModified : option Date;
}.

(** Response of [deleteIfExists] and [createIfNotExists]. *)
Record IfExistsResponse := {
  succeeded : bool;
  errorCode : option string;
}.

Record ContainerProperties := {
  container_lastModified : Date;
  container_etag : string;
}.

Record ContainerItem := {
  container_name : string;
  container_properties : ContainerProperties;
}.

(** One page of [listContainers(...).byPage(...)]. *)
Record ServiceListContainersSegmentResponse := {
  containerItems : list ContainerItem;
  containers_continuationToken : option Token;
}.

Record BlobUploadCommonResponse := {
  upload_etag : string;
  upload_lastModified : Date;
}.

Record BlobSASPermissions := {
  blob_read : bool;
  blob_add : bool;
  blob_create : bool;
  blob_write : bool;
  blob_delete : bool;
}.

Record ContainerSASPermissions := {
  cont_read : bool;
  cont_add : bool;
  cont_create : bool;
  cont_write : bool;
  cont_delete : bool;
  cont_list : bool;
}.

(** *** The proxy's own types *)

Definition StorageBlobResponse := BlobUploadCommonResponse.

Record ListBlobOptions := {
  folder : option string;
  recursive : option bool;
  limit : option N;
}.

(** [{}] *)
Definition no_ListBlobOptions : ListBlobOptions :=
  {| folder := None; recursive := None; limit := None |}.

(** Modelled from the spec: [SharedAccessPolicy] is declared in [./models],
    which is not part of the sources; the spec describes it as a permission
    and expiry descriptor, and the proxy reads [AccessPolicy.Permissions]. *)
Record AccessPolicyBody := {
  Permissions : string;
  Start : option Date;
  Expiry : option Date;
}.

Record SharedAccessPolicy := {
  AccessPolicy : AccessPolicyBody;
}.

(** The [properties] object of a file descriptor. *)
Record BlobProperties := {
  contentLength : option N;
  contentType : option string;
  creationTime : option Date;
  lastModified : option Date;
}.

(** The object literals [listBlobs] and [getBlobProperties] build; a
    literal without a [properties] key has [properties = None]. *)
Record BlobDescriptor := {
  name : string;
  url : string;
  isDirectory : bool;
  properties : option BlobProperties;
}.

(** [{ ...container, id: container.name }] *)
Record ContainerDescriptor := {
  container_item : ContainerItem;
  id : string;
}.

(** Modelled from the spec: [BlobStorageResult] is declared in [./models],
    which is not part of the sources; the spec gives it as
    [{ data: T, continuationToken?: Token }]. *)
Record BlobStorageResult (T : Type) := {
  data : T;
  continuationToken : option Token;
}.
Arguments data {T} _.
Arguments continuationToken {T} _.

Record BlobContentResult := {
  content : Text;
}.

(** The fields of a [BlobStorageClientProxy] instance. *)
Record BlobStorageClientProxy := {
  credential : StorageSharedKeyCredential;
  blobEndpoint : string;
  storageService : BlobServiceClient;
}.

(** The constructor. *)
Definition new_BlobStorageClientProxy
    (credential : StorageSharedKeyCredential) (blobEndpoint : string)
    : BlobStorageClientProxy :=
  {| credential := credential;
     blobEndpoint := blobEndpoint;
     storageService :=
       new_BlobServiceClient
         ("https://" +:+ accountName credential +:+ "." +:+ blobEndpoint)
         credential |}.

(** ** The boundary with the SDK *)

(** A request the proxy sends to the SDK, indexed by the type of the answer.
    The arguments are those of the call in the source. *)
Inductive SdkCall : Type -> Type :=
| ListBlobsByHierarchy (client : ContainerClient)
    (delimiter : option string) (prefix : option string)
    (continuationToken : option Token) (maxPageSize : option N)
    : SdkCall (PagedAsyncIterator ListBlobsHierarchySegmentResponse)
| BlobGetProperties (client : BlockBlobClient)
    (options : option StorageRequestOptions)
    : SdkCall BlobGetPropertiesResponse
| DownloadToBuffer (client : BlockBlobClient) (offset : N)
    (count : option N) (options : option StorageRequestOptions)
    : SdkCall Buffer
| DownloadToFile (client : BlockBlobClient) (filePath : string)
    (offset : option N) (count : option N)
    (options : option StorageRequestOptions)
    : SdkCall unit
| BlobDeleteIfExists (client : BlockBlobClient)
    (options : option StorageRequestOptions)
    : SdkCall IfExistsResponse
| ListContainers (service : BlobServiceClient)
    (options : StorageRequestOptions) (page : option Token)
    : SdkCall (PagedAsyncIterator ServiceListContainersSegmentResponse)
| ContainerGetProperties (client : ContainerClient)
    (options : option StorageRequestOptions)
    : SdkCall ContainerProperties
| DeleteContainer (service : BlobServiceClient) (container : string)
    (options : option StorageRequestOptions)
    : SdkCall unit
| CreateContainer (service : BlobServiceClient) (container : string)
    : SdkCall unit
| ContainerCreateIfNotExists (client : ContainerClient)
    (options : option StorageRequestOptions)
    : SdkCall IfExistsResponse
| ParseBlobSASPermissions (permissions : string)
    : SdkCall BlobSASPermissions
| ParseContainerSASPermissions (permissions : string)
    : SdkCall ContainerSASPermissions
| BlobGenerateSasUrl (client : BlockBlobClient)
    (permissions : BlobSASPermissions)
    : SdkCall string
| ContainerGenerateSasUrl (client : ContainerClient)
    (permissions : ContainerSASPermissions)
    : SdkCall string
| UploadFile (client : BlockBlobClient) (file : string)
    : SdkCall BlobUploadCommonResponse.

(** A request without its answer type, as recorded in the call log. *)
Definition LoggedCall : Type := { X : Type & SdkCall X }.

Definition logged {X} (c : SdkCall X) : LoggedCall := existT X c.

(** The SDK: it answers a request against the state [World] of the storage
    account and the local file system, and may change that state. *)
Definition Handler (World : Type) : Type :=
  forall X, SdkCall X -> World -> result X * World.

(** *** Text decoding *)

Record EncodingResult := {
  encoding : option string;
  seemsBinary : bool;
}.

(** Modelled from the spec: [EncodingUtils.detectEncodingFromBuffer] lives
    in [@batch-flask/utils], which is not part of the sources; the spec says
    it detects the text encoding from the byte content.  It is taken as a
    parameter, together with the runtime's [TextDecoder] and
    [Buffer.prototype.toString]. *)
Record Platform := {
  detectEncodingFromBuffer : Buffer -> nat -> result EncodingResult;
  TextDecoder_decode : string -> Buffer -> result Text;
  Buffer_toString : Buffer -> Text;
}.

(** ** The proxy *)

Section Proxy.

Context {World : Type}.
Variable sdk : Handler World.
Variable platform : Platform.

(** What a method runs against: the receiver, the world behind the SDK, and
    the log of the requests sent so far. *)
Record State := {
  this : BlobStorageClientProxy;
  world : World;
  calls : list LoggedCall;
}.

(** A method body: from a state to an outcome and the state it leaves. *)
Definition M (A : Type) : Type := State -> result A * State.

Definition ret {A} (a : A) : M A := fun st => (Ok a, st).

Definition throw {A} (e : Error) : M A := fun st => (Throw e, st).

Definition bind {A B} (m : M A) (k : A -> M B) : M B :=
  fun st =>
    match m st with
    | (Ok a, st') => k a st'
    | (Throw e, st') => (Throw e, st')
    end.

(** Reading the receiver. *)
Definition get_this : M BlobStorageClientProxy := fun st => (Ok (this st), st).

(** A call that completes or throws without touching the state. *)
Definition lift {A} (r : result A) : M A := fun st => (r, st).

(** Sending a request to the SDK (awaited where the answer is a promise). *)
Definition call {X} (c : SdkCall X) : M X :=
  fun st =>
    let (r, w) := sdk X c (world st) in
    (r, {| this := this st; world := w; calls := calls st ++ [logged c] |}).

Notation "x <- m ;; k" := (bind m (fun x => k))
  (at level 100, m at next level, right associativity).
Notation "m ;; k" := (bind m (fun _ => k))
  (at level 100, right associativity).

(** [blobs.push(x)] *)
Definition push {A} (l : list A) (x : A) : list A := l ++ [x].

(** [for (const x of xs) body] over a mutable accumulator. *)
Definition for_of {A B} (xs : list B) (body : A -> B -> A) (acc : A) : A :=
  fold_left body xs acc.

(** [for await (const page of pages) body] over a mutable accumulator; a
    failing page request throws out of the loop. *)
Fixpoint for_await {P A} (pages : PagedAsyncIterator P)
    (body : A -> P -> A) (acc : A) : M A :=
  match pages with
  | Done => ret acc
  | Failed e => throw e
  | Yield page rest => for_await rest body (body acc page)
  end.

(** *** Private methods *)

Definition getContainerClient (container : string) : M ContainerClient :=
  this <- get_this ;;
  ret (BlobServiceClient_getContainerClient (storageService this) container).

Definition getBlobClient (container blobName : string) : M BlockBlobClient :=
  client <- getContainerClient container ;;
  ret (ContainerClient_getBlockBlobClient client blobName).

Definition _getBlobAsBuffer (container blob : string)
    (options : option StorageRequestOptions) : M Buffer :=
  client <- getBlobClient container blob ;;
  call (DownloadToBuffer client 0 None options).

(** *** Public methods *)

(** The descriptor pushed for a [BlobPrefix]. *)
Definition directory_descriptor (container : string) (prefix : BlobPrefix)
    : BlobDescriptor :=
  {| name := prefix_name prefix;
     url := container +:+ "/" +:+ prefix_name prefix;
     isDirectory := true;
     properties := None |}.

(** The descriptor pushed for a [BlobItem]. *)
Definition file_descriptor (container : string) (blob : BlobItem)
    : BlobDescriptor :=
  {| name := item_name blob;
     url := container +:+ "/" +:+ item_name blob;
     isDirectory := false;
     properties := Some
       {| contentLength := item_contentLength (item_properties blob);
          contentType := item_contentType (item_properties blob);
          creationTime := None;
          lastModified := Some (item_lastModified (item_properties blob)) |} |}.

(** The body of the [for await] loop of [listBlobs]. *)
Definition listBlobs_page (container : string) (blobs : list BlobDescriptor)
    (page : ListBlobsHierarchySegmentResponse) : list BlobDescriptor :=
  let segment := segment page in
  let blobs :=
    for_of (blobPrefixes segment)
      (fun blobs prefix => push blobs (directory_descriptor container prefix))
      blobs in
  for_of (blobItems segment)
    (fun blobs blob => push blobs (file_descriptor container blob))
    blobs.

Definition listBlobs (container : string) (options : option ListBlobOptions)
    (continuationToken : option Token)
    : M (BlobStorageResult (list BlobDescriptor)) :=
  let options := default no_ListBlobOptions options in
  let prefix := folder options in
  let delimiter := if truthy_bool (recursive options) then None else Some "/" in
  client <- getContainerClient container ;;
  pages <- call (ListBlobsByHierarchy client delimiter prefix
                   continuationToken (limit options)) ;;
  blobs <- for_await pages (listBlobs_page container) [] ;;
  ret {| data := blobs; continuationToken := continuationToken |}.

Definition getBlobProperties (container blobName : string)
    (blobPrefix : option string) (options : option StorageRequestOptions)
    : M (BlobStorageResult BlobDescriptor) :=
  let blobPrefix := default "" blobPrefix in
  client <- getBlobClient container blobName ;;
  let blobPath := blobPrefix +:+ blobName in
  props <- call (BlobGetProperties client options) ;;
  ret {| data :=
           {| name := blobName;
              url := container +:+ "/" +:+ blobPath;
              isDirectory := false;
              properties := Some
                {| contentLength := props_contentLength props;
                   contentType := props_contentType props;
                   creationTime := None;
                   lastModified := props_lastModified props |} |};
         continuationToken := None |}.

Definition getBlobContent (container blob : string)
    (options : option StorageRequestOptions) : M BlobContentResult :=
  buffer <- _getBlobAsBuffer container blob options ;;
  detected <- lift (detectEncodingFromBuffer platform buffer (length buffer)) ;;
  content <-
    match truthy (encoding detected) with
    | Some encoding => lift (TextDecoder_decode platform encoding buffer)
    | None => ret (Buffer_toString platform buffer)
    end ;;
  ret {| content := content |}.

Definition getBlobToLocalFile (container blob localFileName : string)
    (options : option StorageRequestOptions) : M unit :=
  client <- getBlobClient container blob ;;
  call (DownloadToFile client localFileName None None options) ;;
  ret tt.

Definition deleteBlobIfExists (container blob : string)
    (options : option StorageRequestOptions) : M bool :=
  client <- getBlobClient container blob ;;
  response <- call (BlobDeleteIfExists client options) ;;
  ret (succeeded response).

(** The body of the [for await] loop of [listContainersWithPrefix]. *)
Definition listContainers_page (containers : list ContainerDescriptor)
    (page : ServiceListContainersSegmentResponse) : list ContainerDescriptor :=
  for_of (containerItems page)
    (fun containers container =>
       push containers
         {| container_item := container; id := container_name container |})
    containers.

Definition listContainersWithPrefix (prefix : string)
    (continuationToken : option Token)
    (options : option StorageRequestOptions)
    : M (BlobStorageResult (list ContainerDescriptor)) :=
  this <- get_this ;;
  pages <- call (ListContainers (storageService this)
                   (default ∅ options ∪ {[ "prefix" := prefix ]})
                   continuationToken) ;;
  containers <- for_await pages listContainers_page [] ;;
  ret {| data := containers; continuationToken := continuationToken |}.

Definition getContainerProperties (container : string)
    (options : option StorageRequestOptions)
    : M (BlobStorageResult ContainerProperties) :=
  client <- getContainerClient container ;;
  response <- call (ContainerGetProperties client options) ;;
  ret {| data := response; continuationToken := None |}.

Definition deleteContainer (container : string)
    (options : option StorageRequestOptions) : M unit :=
  this <- get_this ;;
  call (DeleteContainer (storageService this) container options) ;;
  ret tt.

Definition createContainer (containerName : string) : M unit :=
  this <- get_this ;;
  call (CreateContainer (storageService this) containerName) ;;
  ret tt.

Definition createContainerIfNotExists (containerName : string)
    (options : option StorageRequestOptions) : M bool :=
  client <- getContainerClient containerName ;;
  response <- call (ContainerCreateIfNotExists client options) ;;
  ret (succeeded response).

Definition generateSasUrl (container : string) (blob : option string)
    (accessPolicy : option SharedAccessPolicy) : M string :=
  permissions <-
    match accessPolicy with
    | Some accessPolicy => ret (Permissions (AccessPolicy accessPolicy))
    | None =>
        throw (TypeError
          "Cannot read properties of undefined (reading 'AccessPolicy')")
    end ;;
  match truthy blob with
  | Some blob =>
      client <- getBlobClient container blob ;;
      parsed <- call (ParseBlobSASPermissions permissions) ;;
      call (BlobGenerateSasUrl client parsed)
  | None =>
      client <- getContainerClient container ;;
      parsed <- call (ParseContainerSASPermissions permissions) ;;
      call (ContainerGenerateSasUrl client parsed)
  end.

Definition getUrl (container : string) (blob sasToken : option string)
    : M string :=
  this <- get_this ;;
  ret (join "/"
         [ Some ("https://" +:+ accountName (credential this) +:+ "."
                 +:+ blobEndpoint this);
           Some container;
           match truthy blob with
           | Some blob => Some ("/" +:+ blob +:+ interpolate sasToken)
           | None => sasToken
           end ]).

Definition uploadFile (container file blobName : string)
    : M StorageBlobResponse :=
  client <- getBlobClient container blobName ;;
  call (UploadFile client file).

End Proxy.

Arguments this {World} _.
Arguments world {World} _.
Arguments calls {World} _.

(** ** Blob paths *)

(** [s] without its first [n] characters. *)
Fixpoint string_drop (n : nat) (s : string) : string :=
  match n, s with
  | 0, _ => s
  | S n, String _ s => string_drop n s
  | S _, EmptyString => EmptyString
  end.

(** The part of a blob name below the listed folder. *)
Definition below (prefix : option string) (name : string) : string :=
  string_drop (String.length (default "" prefix)) name.

(** Whether [name] lies in a virtual directory below the listed folder:
    the delimiter occurs in it beyond the prefix. *)
Definition nested (delimiter : string) (prefix : option string)
    (name : string) : bool :=
  match String.index 0 delimiter (below prefix name) with
  | Some _ => true
  | None => false
  end.

(** Whether [name] is a virtual directory one level below the listed
    folder: beyond the prefix, the delimiter occurs at the end and nowhere
    before. *)
Definition one_level (delimiter : string) (prefix : option string)
    (name : string) : bool :=
  match String.index 0 delimiter (below prefix name) with
  | Some i =>
      Nat.eqb (i + String.length delimiter)
        (String.length (below prefix name))
  | None => false
  end.

(** ** An in-memory storage account

    The SDK is not part of the repository.  [MemSdk.handle] answers the
    proxy's requests the way the SDK documents them, against an account kept
    in memory: containers of named blobs, and a local file system for
    downloads and uploads. *)

Module MemSdk.

Record Blob := {
  bytes : Buffer;
  blob_contentType : option string;
  blob_createdOn : option Date;
  blob_lastModified : Date;
}.

Record Container := {
  blobs : gmap string Blob;
  created : Date;
}.

Record Account := {
  containers : gmap string Container;
  files : gmap string Buffer;
  now : Date;
}.

Definition NotFound (code : string) : Error := RestError code 404.
Definition Conflict (code : string) : Error := RestError code 409.

Inductive Entry :=
| PrefixEntry (p : BlobPrefix)
| ItemEntry (i : BlobItem).

Definition entry_name (e : Entry) : string :=
  match e with
  | PrefixEntry p => prefix_name p
  | ItemEntry i => item_name i
  end.

Definition entry_prefix (e : Entry) : option BlobPrefix :=
  match e with
  | PrefixEntry p => Some p
  | ItemEntry _ => None
  end.

Definition entry_item (e : Entry) : option BlobItem :=
  match e with
  | PrefixEntry _ => None
  | ItemEntry i => Some i
  end.

Definition to_item (name : string) (b : Blob) : BlobItem :=
  {| item_name := name;
     item_properties :=
       {| item_contentLength := Some (N.of_nat (length (bytes b)));
          item_contentType := blob_contentType b;
          item_createdOn := blob_createdOn b;
          item_lastModified := blob_lastModified b |} |}.

(** How a blob under the prefix shows up in a listing: as itself, or, when a
    delimiter is given and occurs below the prefix, as the virtual directory
    that ends at the first delimiter. *)
Definition classify (delimiter : option string) (prefix : option string)
    (name : string) (b : Blob) : Entry :=
  match delimiter with
  | Some d =>
      match String.index 0 d (below prefix name) with
      | Some i =>
          PrefixEntry
            {| prefix_name :=
                 default "" prefix
                 +:+ String.substring 0 (i + String.length d)
                       (below prefix name) |}
      | None => ItemEntry (to_item name b)
      end
  | None => ItemEntry (to_item name b)
  end.

Definition listed (e : Entry) (acc : list Entry) : bool :=
  bool_decide (entry_name e ∈ map entry_name acc).

(** A virtual directory is listed once. *)
Definition add_entry (acc : list Entry) (e : Entry) : list Entry :=
  match e with
  | PrefixEntry _ => if listed e acc then acc else acc ++ [e]
  | ItemEntry _ => acc ++ [e]
  end.

(** The blobs of a container in the order of their names. *)
Definition sorted_blobs (c : Container) : list (string * Blob) :=
  merge_sort (fun x y => String.le x.1 y.1) (map_to_list (blobs c)).

Definition enumerate (delimiter prefix : option string)
    (c : Container) : list Entry :=
  fold_left
    (fun acc '(name, b) =>
       if String.prefix (default "" prefix) name
       then add_entry acc (classify delimiter prefix name b)
       else acc)
    (sorted_blobs c) [].

(** Resuming at a marker: the entries from the one it names on. *)
Fixpoint resume (marker : Token) (es : list Entry) : list Entry :=
  match es with
  | [] => []
  | e :: rest =>
      if String.eqb (entry_name e) marker then es else resume marker rest
  end.

Fixpoint chunks {A} (fuel size : nat) (l : list A) : list (list A) :=
  match fuel with
  | 0 => []
  | S fuel =>
      match l with
      | [] => []
      | _ => take size l :: chunks fuel size (drop size l)
      end
  end.

Definition marker_of (next : list (list Entry)) : option Token :=
  match next with
  | (e :: _) :: _ => Some (entry_name e)
  | _ => None
  end.

Definition to_page (chunk : list Entry) (next : option Token)
    : ListBlobsHierarchySegmentResponse :=
  {| segment :=
       {| blobPrefixes := omap entry_prefix chunk;
          blobItems := omap entry_item chunk |};
     page_continuationToken := next |}.

Fixpoint to_pages (cs : list (list Entry))
    : list ListBlobsHierarchySegmentResponse :=
  match cs with
  | [] => []
  | c :: rest => to_page c (marker_of rest) :: to_pages rest
  end.

(** The pages of a listing: at most [maxPageSize] entries each (all of them
    on one page when no size is given), at least one page. *)
Definition paginate (maxPageSize : option N) (es : list Entry)
    : list ListBlobsHierarchySegmentResponse :=
  let size :=
    match maxPageSize with
    | Some n => Nat.max 1 (N.to_nat n)
    | None => Nat.max 1 (length es)
    end in
  match to_pages (chunks (length es) size es) with
  | [] => [to_page [] None]
  | pages => pages
  end.

Definition listBlobsByHierarchy (client : ContainerClient)
    (delimiter prefix : option string) (continuationToken : option Token)
    (maxPageSize : option N) (w : Account)
    : result (PagedAsyncIterator ListBlobsHierarchySegmentResponse) :=
  if bool_decide (delimiter = Some "")
  then Throw (RangeError "delimiter should contain one or more characters")
  else
    match containers w !! containerName client with
    | None => Ok (Failed (NotFound "ContainerNotFound"))
    | Some c =>
        let es := enumerate delimiter prefix c in
        let es :=
          match continuationToken with
          | Some marker => resume marker es
          | None => es
          end in
        Ok (of_pages (paginate maxPageSize es))
    end.

Definition find_blob (client : BlockBlobClient) (w : Account)
    : result Blob :=
  match containers w !! containerName (blob_container client) with
  | None => Throw (NotFound "ContainerNotFound")
  | Some c =>
      match blobs c !! blobName client with
      | None => Throw (NotFound "BlobNotFound")
      | Some b => Ok b
      end
  end.

Definition getProperties (client : BlockBlobClient) (w : Account)
    : result BlobGetPropertiesResponse :=
  match find_blob client w with
  | Ok b =>
      Ok {| props_contentLength := Some (N.of_nat (length (bytes b)));
            props_contentType := blob_contentType b;
            props_createdOn := blob_createdOn b;
            props_lastModified := Some (blob_lastModified b) |}
  | Throw e => Throw e
  end.

Definition download (client : BlockBlobClient) (offset : N)
    (count : option N) (w : Account) : result Buffer :=
  match find_blob client w with
  | Ok b =>
      let rest := drop (N.to_nat offset) (bytes b) in
      Ok (match count with
          | Some n => take (N.to_nat n) rest
          | None => rest
          end)
  | Throw e => Throw e
  end.

Definition set_container (name : string) (c : Container) (w : Account)
    : Account :=
  {| containers := <[ name := c ]> (containers w);
     files := files w;
     now := now w |}.



(** [deleteIfExists]: a missing blob is reported as [succeeded = false];
    other failures are thrown. *)
Definition deleteIfExists (client : BlockBlobClient) (w : Account)
    : result IfExistsResponse * Account :=
  let cname := containerName (blob_container client) in
  match containers w !! cname with
  | None => (Throw (NotFound "ContainerNotFound"), w)
  | Some c =>
      match blobs c !! blobName client with
      | None =>
          (Ok {| succeeded := false; errorCode := Some "BlobNotFound" |}, w)
      | Some _ =>
          (Ok {| succeeded := true; errorCode := None |},
           set_container cname
             {| blobs := delete (blobName client) (blobs c);
                created := created c |} w)
      end
  end.

(** [createIfNotExists]: an existing container is reported as
    [succeeded = false]. *)
Definition createIfNotExists (client : ContainerClient) (w : Account)
    : result IfExistsResponse * Account :=
  match containers w !! containerName client with
  | Some _ =>
      (Ok {| succeeded := false;
             errorCode := Some "ContainerAlreadyExists" |}, w)
  | None =>
      (Ok {| succeeded := true; errorCode := None |},
       set_container (containerName client)
         {| blobs := ∅; created := now w |} w)
  end.

Definition createContainer (name : string) (w : Account)
    : result unit * Account :=
  match containers w !! name with
  | Some _ => (Throw (Conflict "ContainerAlreadyExists"), w)
  | None =>
      (Ok tt, set_container name {| blobs := ∅; created := now w |} w)
  end.

Definition deleteContainer (name : string) (w : Account)
    : result unit * Account :=
  match containers w !! name with
  | None => (Throw (NotFound "ContainerNotFound"), w)
  | Some _ =>
      (Ok tt,
       {| containers := delete name (containers w);
          files := files w;
          now := now w |})
  end.

Definition container_properties_of (c : Container) : ContainerProperties :=
  {| container_lastModified := created c; container_etag := "0x0" |}.

Definition containerProperties (client : ContainerClient) (w : Account)
    : result ContainerProperties :=
  match containers w !! containerName client with
  | None => Throw (NotFound "ContainerNotFound")
  | Some c => Ok (container_properties_of c)
  end.

(** [listContainers]: the containers whose name starts with the [prefix]
    option, on one page. *)
Definition listContainers (options : StorageRequestOptions) (w : Account)
    : PagedAsyncIterator ServiceListContainersSegmentResponse :=
  let items :=
    omap
      (fun '(name, c) =>
         if String.prefix (default "" (options !! "prefix")) name
         then Some {| container_name := name;
                      container_properties := container_properties_of c |}
         else None)
      (map_to_list (containers w)) in
  of_pages [ {| containerItems := items;
                containers_continuationToken := None |} ].

Definition downloadToFile (client : BlockBlobClient) (filePath : string)
    (w : Account) : result unit * Account :=
  match find_blob client w with
  | Ok b =>
      (Ok tt,
       {| containers := containers w;
          files := <[ filePath := bytes b ]> (files w);
          now := now w |})
  | Throw e => (Throw e, w)
  end.

Definition uploadFile (client : BlockBlobClient) (file : string)
    (w : Account) : result BlobUploadCommonResponse * Account :=
  let cname := containerName (blob_container client) in
  match files w !! file with
  | None => (Throw (SystemError "ENOENT"), w)
  | Some content =>
      match containers w !! cname with
      | None => (Throw (NotFound "ContainerNotFound"), w)
      | Some c =>
          (Ok {| upload_etag := "0x0"; upload_lastModified := now w |},
           set_container cname
             {| blobs :=
                  <[ blobName client :=
                       {| bytes := content;
                          blob_contentType := None;
                          blob_createdOn := Some (now w);
                          blob_lastModified := now w |} ]> (blobs c);
                created := created c |} w)
      end
  end.

Definition blob_permission (acc : result BlobSASPermissions) (c : Ascii.ascii)
    : result BlobSASPermissions :=
  match acc with
  | Throw e => Throw e
  | Ok p =>
      let 'Build_BlobSASPermissions r a cr w d := p in
      if String.eqb (String c "") "r"
      then Ok (Build_BlobSASPermissions true a cr w d)
      else if String.eqb (String c "") "a"
      then Ok (Build_BlobSASPermissions r true cr w d)
      else if String.eqb (String c "") "c"
      then Ok (Build_BlobSASPermissions r a true w d)
      else if String.eqb (String c "") "w"
      then Ok (Build_BlobSASPermissions r a cr true d)
      else if String.eqb (String c "") "d"
      then Ok (Build_BlobSASPermissions r a cr w true)
      else Throw (RangeError ("Invalid permission: " +:+ String c ""))
  end.

Definition parseBlobSASPermissions (permissions : string)
    : result BlobSASPermissions :=
  fold_left blob_permission (String.list_ascii_of_string permissions)
    (Ok (Build_BlobSASPermissions false false false false false)).

Definition container_permission (acc : result ContainerSASPermissions)
    (c : Ascii.ascii) : result ContainerSASPermissions :=
  match acc with
  | Throw e => Throw e
  | Ok p =>
      let 'Build_ContainerSASPermissions r a cr w d l := p in
      if String.eqb (String c "") "r"
      then Ok (Build_ContainerSASPermissions true a cr w d l)
      else if String.eqb (String c "") "a"
      then Ok (Build_ContainerSASPermissions r true cr w d l)
      else if String.eqb (String c "") "c"
      then Ok (Build_ContainerSASPermissions r a true w d l)
      else if String.eqb (String c "") "w"
      then Ok (Build_ContainerSASPermissions r a cr true d l)
      else if String.eqb (String c "") "d"
      then Ok (Build_ContainerSASPermissions r a cr w true l)
      else if String.eqb (String c "") "l"
      then Ok (Build_ContainerSASPermissions r a cr w d true)
      else Throw (RangeError ("Invalid permission: " +:+ String c ""))
  end.

Definition parseContainerSASPermissions (permissions : string)
    : result ContainerSASPermissions :=
  fold_left container_permission (String.list_ascii_of_string permissions)
    (Ok (Build_ContainerSASPermissions false false false false false false)).

Definition flag (b : bool) (c : string) : string := if b then c else "".

Definition blob_permissions_string (p : BlobSASPermissions) : string :=
  flag (blob_read p) "r" +:+ flag (blob_add p) "a"
  +:+ flag (blob_create p) "c" +:+ flag (blob_write p) "w"
  +:+ flag (blob_delete p) "d".

Definition container_permissions_string (p : ContainerSASPermissions)
    : string :=
  flag (cont_read p) "r" +:+ flag (cont_add p) "a"
  +:+ flag (cont_create p) "c" +:+ flag (cont_write p) "w"
  +:+ flag (cont_delete p) "d" +:+ flag (cont_list p) "l".

Definition container_url (client : ContainerClient) : string :=
  service_url (container_service client) +:+ "/" +:+ containerName client.

Definition blob_url (client : BlockBlobClient) : string :=
  container_url (blob_container client) +:+ "/" +:+ blobName client.

(** The in-memory SDK.  A request that only reads leaves the account as it
    is. *)
Definition handle : Handler Account :=
  fun X (c : SdkCall X) (w : Account) =>
    match c in SdkCall X return result X * Account with
    | ListBlobsByHierarchy client delimiter prefix token size =>
        (listBlobsByHierarchy client delimiter prefix token size w, w)
    | BlobGetProperties client _ => (getProperties client w, w)
    | DownloadToBuffer client offset count _ =>
        (download client offset count w, w)
    | DownloadToFile client filePath _ _ _ =>
        downloadToFile client filePath w
    | BlobDeleteIfExists client _ => deleteIfExists client w
    | ListContainers _ options _ => (Ok (listContainers options w), w)
    | ContainerGetProperties client _ => (containerProperties client w, w)
    | DeleteContainer _ container _ => deleteContainer container w
    | CreateContainer _ container => createContainer container w
    | ContainerCreateIfNotExists client _ => createIfNotExists client w
    | ParseBlobSASPermissions permissions =>
        (parseBlobSASPermissions permissions, w)
    | ParseContainerSASPermissions permissions =>
        (parseContainerSASPermissions permissions, w)
    | BlobGenerateSasUrl client permissions =>
        (Ok (blob_url client +:+ "?sp="
             +:+ blob_permissions_string permissions), w)
    | ContainerGenerateSasUrl client permissions =>
        (Ok (container_url client +:+ "?sp="
             +:+ container_permissions_string permissions), w)
    | UploadFile client file => uploadFile client file w
    end.

End MemSdk.

(** ** A reference platform for text decoding

    [Utf8.decode] follows the UTF-8 decoder of the Encoding standard (the
    one behind [TextDecoder] and [Buffer.prototype.toString]): malformed
    input becomes U+FFFD.  [Utf8.platform] detects an encoding from the
    byte order mark. *)

Module Utf8.

Definition byte_of (n : N) : Byte.byte := default Byte.x00 (Byte.of_N n).

Definition replacement : N := 0xFFFD.

Definition bom : N := 0xFEFF.

(** A Unicode scalar value: a code point that is not a surrogate. *)
Definition scalar (c : N) : bool :=
  ((c <? 0xD800) || ((0xDFFF <? c) && (c <=? 0x10FFFF)))%N.

Definition encode_point (c : N) : list N :=
  if (c <? 0x80)%N then [c]
  else if (c <? 0x800)%N then
    [0xC0 + c / 64; 0x80 + c mod 64]%N
  else if (c <? 0x10000)%N then
    [0xE0 + c / 4096; 0x80 + (c / 64) mod 64; 0x80 + c mod 64]%N
  else
    [0xF0 + c / 262144; 0x80 + (c / 4096) mod 64;
     0x80 + (c / 64) mod 64; 0x80 + c mod 64]%N.

Definition encode (t : Text) : Buffer :=
  map byte_of (flat_map encode_point t).

Definition continuation (b : N) : bool := ((0x80 <=? b) && (b <=? 0xBF))%N.

Definition within (lo hi b : N) : bool := ((lo <=? b) && (b <=? hi))%N.

(** Decoding a sequence of byte values. *)
Fixpoint decode_values (bs : list N) : Text :=
  match bs with
  | [] => []
  | b0 :: rest =>
      if (b0 <? 0x80)%N then b0 :: decode_values rest
      else if within 0xC2 0xDF b0 then
        match rest with
        | b1 :: rest1 =>
            if continuation b1
            then ((b0 - 0xC0) * 64 + (b1 - 0x80))%N :: decode_values rest1
            else replacement :: decode_values rest
        | [] => [replacement]
        end
      else if within 0xE0 0xEF b0 then
        match rest with
        | b1 :: rest1 =>
            if within (if (b0 =? 0xE0)%N then 0xA0 else 0x80)%N
                      (if (b0 =? 0xED)%N then 0x9F else 0xBF)%N b1
            then
              match rest1 with
              | b2 :: rest2 =>
                  if continuation b2
                  then ((b0 - 0xE0) * 4096 + (b1 - 0x80) * 64
                        + (b2 - 0x80))%N :: decode_values rest2
                  else replacement :: decode_values rest1
              | [] => [replacement]
              end
            else replacement :: decode_values rest
        | [] => [replacement]
        end
      else if within 0xF0 0xF4 b0 then
        match rest with
        | b1 :: rest1 =>
            if within (if (b0 =? 0xF0)%N then 0x90 else 0x80)%N
                      (if (b0 =? 0xF4)%N then 0x8F else 0xBF)%N b1
            then
              match rest1 with
              | b2 :: rest2 =>
                  if continuation b2
                  then
                    match rest2 with
                    | b3 :: rest3 =>
                        if continuation b3
                        then ((b0 - 0xF0) * 262144 + (b1 - 0x80) * 4096
                              + (b2 - 0x80) * 64 + (b3 - 0x80))%N
                             :: decode_values rest3
                        else replacement :: decode_values rest2
                    | [] => [replacement]
                    end
                  else replacement :: decode_values rest1
              | [] => [replacement]
              end
            else replacement :: decode_values rest
        | [] => [replacement]
        end
      else replacement :: decode_values rest
  end.

(** [buffer.toString()]: UTF-8 decoding, a byte order mark is kept. *)
Definition decode (buffer : Buffer) : Text :=
  decode_values (map Byte.to_N buffer).

Definition strip_bom (t : Text) : Text :=
  match t with
  | c :: rest => if (c =? bom)%N then rest else t
  | [] => []
  end.

(** [new TextDecoder(label).decode(buffer)] for the UTF-8 labels: a leading
    byte order mark is dropped.  Another label is a [RangeError]. *)
Definition text_decoder (label : string) (buffer : Buffer) : result Text :=
  if bool_decide (label ∈ ["utf8"; "utf-8"])
  then Ok (strip_bom (decode buffer))
  else Throw (RangeError ("The encoding label provided ('" +:+ label
                          +:+ "') is invalid.")).

(** Whether the byte values [bs] start with the signature [signature]. *)
Definition starts_with (signature bs : list N) : bool :=
  bool_decide (take (length signature) bs = signature).

(** Detection from the byte order mark. *)
Definition detect (buffer : Buffer) (bytesRead : nat) : result EncodingResult :=
  let bs := map Byte.to_N (take bytesRead buffer) in
  if starts_with [0xEF; 0xBB; 0xBF]%N bs
  then Ok {| encoding := Some "utf8"; seemsBinary := false |}
  else if starts_with [0xFE; 0xFF]%N bs
  then Ok {| encoding := Some "utf16be"; seemsBinary := false |}
  else if starts_with [0xFF; 0xFE]%N bs
  then Ok {| encoding := Some "utf16le"; seemsBinary := false |}
  else Ok {| encoding := None; seemsBinary := false |}.

Definition platform : Platform :=
  {| detectEncodingFromBuffer := detect;
     TextDecoder_decode := text_decoder;
     Buffer_toString := decode |}.

End Utf8.

(** ** Notions used to state the properties *)

(** The descriptors one page of a listing contributes: its directory
    prefixes, then its files. *)
Definition page_descriptors (container : string)
    (page : ListBlobsHierarchySegmentResponse) : list BlobDescriptor :=
  map (directory_descriptor container) (blobPrefixes (segment page))
  ++ map (file_descriptor container) (blobItems (segment page)).


(** A directory carries no [properties]; a file carries them. *)
Definition descriptor_invariant (d : BlobDescriptor) : Prop :=
  if isDirectory d then properties d = None else is_Some (properties d).

(** The state a method leaves after one request [c] that left the world as
    [w]. *)
Definition after_call {World X} (st : State (World := World))
    (c : SdkCall X) (w : World) : State (World := World) :=
  {| this := this st; world := w; calls := calls st ++ [logged c] |}.

(** The request [listBlobs] sends for its arguments. *)
Definition listBlobs_request (this : BlobStorageClientProxy)
    (container : string) (options : option ListBlobOptions)
    (continuationToken : option Token)
    : SdkCall (PagedAsyncIterator ListBlobsHierarchySegmentResponse) :=
  ListBlobsByHierarchy
    (BlobServiceClient_getContainerClient (storageService this) container)
    (if truthy_bool (recursive (default no_ListBlobOptions options))
     then None else Some "/")
    (folder (default no_ListBlobOptions options))
    continuationToken
    (limit (default no_ListBlobOptions options)).


(** Whether a page honours the delimiter the enumeration was asked with:
    no blob item lies below a virtual directory and every prefix is one
    level deep; without a delimiter there are no prefixes. *)
Definition page_honours (delimiter prefix : option string)
    (page : ListBlobsHierarchySegmentResponse) : bool :=
  match delimiter with
  | Some d =>
      forallb (fun i => negb (nested d prefix (item_name i)))
        (blobItems (segment page))
      && forallb (fun p => one_level d prefix (prefix_name p))
           (blobPrefixes (segment page))
  | None =>
      match blobPrefixes (segment page) with
      | [] => true
      | _ => false
      end
  end.

(** Whether all the pages an enumeration yields honour the delimiter. *)
Definition honours_delimiter (delimiter prefix : option string)
    (pages : list ListBlobsHierarchySegmentResponse) : bool :=
  forallb (page_honours delimiter prefix) pages.

(** The same for an entry of the in-memory enumeration. *)
Definition entry_honours (delimiter prefix : option string)
    (e : MemSdk.Entry) : bool :=
  match delimiter, e with
  | Some d, MemSdk.ItemEntry i => negb (nested d prefix (item_name i))
  | Some d, MemSdk.PrefixEntry p => one_level d prefix (prefix_name p)
  | None, MemSdk.ItemEntry _ => true
  | None, MemSdk.PrefixEntry _ => false
  end.

(** A call of a method of the proxy, indexed by what the method returns. *)
Inductive Invocation : Type -> Type :=
| Call_listBlobs (container : string) (options : option ListBlobOptions)
    (continuationToken : option Token)
    : Invocation (BlobStorageResult (list BlobDescriptor))
| Call_getBlobProperties (container blobName : string)
    (blobPrefix : option string) (options : option StorageRequestOptions)
    : Invocation (BlobStorageResult BlobDescriptor)
| Call_getBlobContent (container blob : string)
    (options : option StorageRequestOptions)
    : Invocation BlobContentResult
| Call_getBlobToLocalFile (container blob localFileName : string)
    (options : option StorageRequestOptions)
    : Invocation unit
| Call_deleteBlobIfExists (container blob : string)
    (options : option StorageRequestOptions)
    : Invocation bool
| Call_listContainersWithPrefix (prefix : string)
    (continuationToken : option Token)
    (options : option StorageRequestOptions)
    : Invocation (BlobStorageResult (list ContainerDescriptor))
| Call_getContainerProperties (container : string)
    (options : option StorageRequestOptions)
    : Invocation (BlobStorageResult ContainerProperties)
| Call_deleteContainer (container : string)
    (options : option StorageRequestOptions)
    : Invocation unit
| Call_createContainer (containerName : string)
    : Invocation unit
| Call_createContainerIfNotExists (containerName : string)
    (options : option StorageRequestOptions)
    : Invocation bool
| Call_generateSasUrl (container : string) (blob : option string)
    (accessPolicy : option SharedAccessPolicy)
    : Invocation string
| Call_getUrl (container : string) (blob sasToken : option string)
    : Invocation string
| Call_uploadFile (container file blobName : string)
    : Invocation StorageBlobResponse
| Call_getContainerClient (container : string)
    : Invocation ContainerClient
| Call_getBlobClient (container blobName : string)
    : Invocation BlockBlobClient
| Call_getBlobAsBuffer (container blob : string)
    (options : option StorageRequestOptions)
    : Invocation Buffer.

(** The method an invocation runs. *)
Definition invoke {World} (sdk : Handler World) (platform : Platform)
    {A} (i : Invocation A) : M (World := World) A :=
  match i in Invocation A return M A with
  | Call_listBlobs container options continuationToken =>
      listBlobs sdk container options continuationToken
  | Call_getBlobProperties container blobName blobPrefix options =>
      getBlobProperties sdk container blobName blobPrefix options
  | Call_getBlobContent container blob options =>
      getBlobContent sdk platform container blob options
  | Call_getBlobToLocalFile container blob localFileName options =>
      getBlobToLocalFile sdk container blob localFileName options
  | Call_deleteBlobIfExists container blob options =>
      deleteBlobIfExists sdk container blob options
  | Call_listContainersWithPrefix prefix continuationToken options =>
      listContainersWithPrefix sdk prefix continuationToken options
  | Call_getContainerProperties container options =>
      getContainerProperties sdk container options
  | Call_deleteContainer container options =>
      deleteContainer sdk container options
  | Call_createContainer containerName => createContainer sdk containerName
  | Call_createContainerIfNotExists containerName options =>
      createContainerIfNotExists sdk containerName options
  | Call_generateSasUrl container blob accessPolicy =>
      generateSasUrl sdk container blob accessPolicy
  | Call_getUrl container blob sasToken => getUrl container blob sasToken
  | Call_uploadFile container file blobName =>
      uploadFile sdk container file blobName
  | Call_getContainerClient container => getContainerClient container
  | Call_getBlobClient container blobName => getBlobClient container blobName
  | Call_getBlobAsBuffer container blob options =>
      _getBlobAsBuffer sdk container blob options
  end.

(** The state a sequence of calls leaves, whatever each returns or
    throws. *)
Definition run_all {World} (sdk : Handler World) (platform : Platform)
    (invocations : list { A : Type & Invocation A })
    (st : State (World := World)) : State (World := World) :=
  fold_left (fun st i => snd (invoke sdk platform (projT2 i) st))
    invocations st.

(** A method body that leaves the receiver as it found it. *)
Definition keeps_this {World A} (m : M (World := World) A) : Prop :=
  forall st, this (snd (m st)) = this st.

(** ** Fixtures *)

Module Example.

Definition credential : StorageSharedKeyCredential :=
  {| accountName := "acct"; accountKey := "c2VjcmV0" |}.

Definition proxy : BlobStorageClientProxy :=
  new_BlobStorageClientProxy credential "blob.core.windows.net".

Definition blob_of (content : Buffer) : MemSdk.Blob :=
  {| MemSdk.bytes := content;
     MemSdk.blob_contentType := Some "text/plain";
     MemSdk.blob_createdOn := Some 1600000000000%Z;
     MemSdk.blob_lastModified := 1600000500000%Z |}.

Definition text_blob (s : string) : MemSdk.Blob :=
  blob_of (String.list_byte_of_string s).

(** Container [grp-1] holds the output of task 1001: two files, a
    sub-folder with two files, and a blob outside the folder. *)
Definition account : MemSdk.Account :=
  {| MemSdk.containers :=
       {[ "grp-1" :=
            {| MemSdk.blobs :=
                 list_to_map
                   [ ("1001/$TaskOutput/a.txt", text_blob "alpha");
                     ("1001/$TaskOutput/sub/b.txt", text_blob "beta");
                     ("1001/$TaskOutput/sub/c.txt", text_blob "gamma");
                     ("1001/$TaskOutput/z.txt",
                      blob_of (Utf8.encode [0x68; 0xE9; 0x20AC]%N));
                     ("1001/$TaskOutput/bom.txt",
                      blob_of (Utf8.encode [0xFEFF; 0x68; 0xE9]%N));
                     ("other.bin", text_blob "o") ];
               MemSdk.created := 1500000000000%Z |} ]};
     MemSdk.files := ∅;
     MemSdk.now := 1700000000000%Z |}.

Definition state : State :=
  {| this := proxy; world := account; calls := [] |}.

Definition task_output (recursive : option bool) (limit : option N)
    : option ListBlobOptions :=
  Some {| folder := Some "1001/$TaskOutput/";
          recursive := recursive;
          limit := limit |}.

Definition policy (permissions : string) : SharedAccessPolicy :=
  {| AccessPolicy :=
       {| Permissions := permissions; Start := None; Expiry := None |} |}.

End Example.

(** ** Further notions: what a method sends and leaves *)

(** Whether a request changes the storage account or the local files. *)
Definition mutating (c : LoggedCall) : bool :=
  match projT2 c with
  | DownloadToFile _ _ _ _ _
  | BlobDeleteIfExists _ _
  | DeleteContainer _ _ _
  | CreateContainer _ _
  | ContainerCreateIfNotExists _ _
  | UploadFile _ _ => true
  | _ => false
  end.

(** The methods that list, read, sign or compose. *)
Definition read_only {A} (i : Invocation A) : bool :=
  match i with
  | Call_getBlobToLocalFile _ _ _ _
  | Call_deleteBlobIfExists _ _ _
  | Call_deleteContainer _ _
  | Call_createContainer _
  | Call_createContainerIfNotExists _ _
  | Call_uploadFile _ _ _ => false
  | _ => true
  end.

(** A method body whose requests all satisfy [P]. *)
Definition sends_only {World A} (P : LoggedCall -> Prop)
    (m : M (World := World) A) : Prop :=
  forall st, exists new,
    calls (snd (m st)) = calls st ++ new /\ Forall P new.

(** A method body that leaves the world behind the SDK as it found it. *)
Definition keeps_world {World A} (m : M (World := World) A) : Prop :=
  forall st, world (snd (m st)) = world st.

(** A method that sends the one request [request] and hands on its answer,
    mapped by [f], or its error. *)
Definition passes_through {World X A} (sdk : Handler World)
    (m : M (World := World) A)
    (request : BlobStorageClientProxy -> SdkCall X) (f : X -> A) : Prop :=
  forall st,
    m st
    = (match fst (sdk _ (request (this st)) (world st)) with
       | Ok x => Ok (f x)
       | Throw e => Throw e
       end,
       after_call st (request (this st))
         (snd (sdk _ (request (this st)) (world st)))).

(** The request [listContainersWithPrefix] sends for its arguments. *)
Definition listContainers_request (this : BlobStorageClientProxy)
    (prefix : string) (continuationToken : option Token)
    (options : option StorageRequestOptions)
    : SdkCall (PagedAsyncIterator ServiceListContainersSegmentResponse) :=
  ListContainers (storageService this)
    (default ∅ options ∪ {[ "prefix" := prefix ]}) continuationToken.

(** ** The storage account service (storage-account-service.ts) *)

Module StorageAccounts.

(** [id?.replace(/^\/subscriptions\//, "")]: the pattern is anchored and
    not global, so at most the one occurrence at the start is removed. *)
Definition formatSubscriptionId (id : option string) : option string :=
  match id with
  | Some id =>
      Some (if String.prefix "/subscriptions/" id
            then string_drop (String.length "/subscriptions/") id
            else id)
  | None => None
  end.

Section Service.

(** The account model, the HTTP client of [AbstractHttpService] and the
    constants [Endpoints.arm] and [ApiVersion.arm] are declared outside the
    sources; they are parameters. *)
Variable StorageAccount : Type.
Variable Response : Type.
Variable Network : Type.
Variable Endpoints_arm : string.
Variable ApiVersion_arm : string.
Variable httpClient_get : string -> Network -> result Response * Network.

Record ResourceListResponse := {
  value : list StorageAccount;
}.

Variable response_json : Response -> result ResourceListResponse.

(** The URL [list] requests. *)
Definition list_url (subscriptionId : option string) : string :=
  Endpoints_arm +:+ "/subscriptions/"
  +:+ interpolate (formatSubscriptionId subscriptionId)
  +:+ "/providers/Microsoft.Storage/storageAccounts?api-version="
  +:+ ApiVersion_arm.

(** [StorageAccountServiceImpl.list] *)
Definition list_ (subscriptionId : option string) (net : Network)
    : result (list StorageAccount) * Network :=
  match httpClient_get (list_url subscriptionId) net with
  | (Ok response, net') =>
      (match response_json response with
       | Ok json => Ok (value json)
       | Throw e => Throw e
       end, net')
  | (Throw e, net') => (Throw e, net')
  end.

End Service.

End StorageAccounts.

(** ** The portfolio service (portfolio.service.ts)

    The observable pipelines of the service are represented by the
    functions they apply to each emission. *)

Module Portfolios.

Section Service.

(** [PortfolioType], [GithubPortfolio] and the file system service are
    declared outside the sources; they are parameters. *)
Variable PortfolioType : Type.
Variable Github : PortfolioType.
Variable Portfolio : Type.
Variable FileSystemService : Type.
Variable fs : FileSystemService.

Record PortfolioReference := {
  id : string;
  type : PortfolioType;
  source : option string;
}.

Variable new_GithubPortfolio :
  PortfolioReference -> FileSystemService -> Portfolio.

Definition MICROSOFT_PORTFOLIO : PortfolioReference :=
  {| id := "microsoft-offical"; type := Github; source := None |}.

(** What [storage.watch] emits under [PortfolioService.KEY]: nothing, or an
    object whose [portfolios] is an array or something else. *)
Inductive StoredPortfolios :=
| NotAnArray
| AnArray (references : list PortfolioReference).

Record PortfolioData := {
  portfolios : StoredPortfolios;
}.

(** The source of the built-in portfolio for the current settings. *)
Definition microsoft_source (settings : gmap string string) : string :=
  let branch :=
    default "master" (truthy (settings !! "github-data.source.branch")) in
  let repo :=
    default "Azure/BatchExplorer-data"
      (truthy (settings !! "github-data.source.repo")) in
  "https://github.com/" +:+ repo +:+ "/tree/" +:+ branch.

(** [new GithubPortfolio({ ...MICROSOFT_PORTFOLIO, source }, this.fs)] *)
Definition microsoft_portfolio (source : string) : Portfolio :=
  new_GithubPortfolio
    {| id := id MICROSOFT_PORTFOLIO;
       type := type MICROSOFT_PORTFOLIO;
       source := Some source |}
    fs.

(** The references read from a stored value. *)
Definition stored_references (data : option PortfolioData)
    : list PortfolioReference :=
  match data with
  | Some data =>
      match portfolios data with
      | AnArray references => references
      | NotAnArray => []
      end
  | None => []
  end.

(** A JavaScript [Map] with string keys: the entries in insertion order. *)
Definition JsMap : Type := list (string * Portfolio).

(** [map.set(key, v)]: a key already present keeps its place. *)
Fixpoint map_set (key : string) (v : Portfolio) (m : JsMap) : JsMap :=
  match m with
  | [] => [(key, v)]
  | (k, v') :: rest =>
      if String.eqb k key then (k, v) :: rest
      else (k, v') :: map_set key v rest
  end.

(** [map.get(key)] *)
Definition map_get (key : string) (m : JsMap) : option Portfolio :=
  snd <$> List.find (fun entry => String.eqb entry.1 key) m.

(** [map.values()] *)
Definition map_values (m : JsMap) : list Portfolio := map snd m.

Definition _processPortfolios (portfolios : list PortfolioReference)
    : JsMap :=
  fold_left
    (fun map portfolio =>
       map_set (id portfolio) (new_GithubPortfolio portfolio fs) map)
    portfolios [].

(** What [portfolios] emits for the latest built-in portfolio and the
    latest map: [[microsoft, ...others.values()]]. *)
Definition all_portfolios (microsoft : Portfolio) (others : JsMap)
    : list Portfolio :=
  microsoft :: map_values others.

(** What [get(id)] emits for the built-in portfolio and the map it takes. *)
Definition get (id_ : string) (microsoft : Portfolio) (others : JsMap)
    : option Portfolio :=
  if String.eqb id_ (id MICROSOFT_PORTFOLIO) then Some microsoft
  else map_get id_ others.

(** The last of the references that carries the id [id_]. *)
Definition last_with_id (id_ : string)
    (references : list PortfolioReference) : option PortfolioReference :=
  List.find (fun r => String.eqb (id r) id_) (rev references).

End Service.

End Portfolios.

(** ** More fixtures *)

Module Fixture.

(** An account with one container of two blobs, and a local file. *)
Definition account : MemSdk.Account :=
  {| MemSdk.containers :=
       {[ "data" := {| MemSdk.blobs :=
                         {[ "utf16.txt" :=
                              Example.blob_of
                                (map Utf8.byte_of [0xFF; 0xFE; 0x68; 0x00]%N);
                            "logs/out.txt" := Example.text_blob "done" ]};
                       MemSdk.created := 1500000000000%Z |} ]};
     MemSdk.files := {[ "/tmp/in.txt" := String.list_byte_of_string "payload" ]};
     MemSdk.now := 1700000000000%Z |}.

Definition state : State :=
  {| this := Example.proxy; world := account; calls := [] |}.

(** A resource manager that knows one subscription. *)
Definition arm_get (url : string) (net : unit) : result (list string) * unit :=
  if String.eqb url
       "https://management.azure.com/subscriptions/sub1/providers/Microsoft.Storage/storageAccounts?api-version=2021"
  then (Ok ["acct1"; "acct2"], tt)
  else (Throw (RestError "SubscriptionNotFound" 404), tt).

Definition arm_json (response : list string)
    : result (StorageAccounts.ResourceListResponse string) :=
  Ok {| StorageAccounts.value := response |}.

Definition arm_list : option string -> unit -> result (list string) * unit :=
  StorageAccounts.list_ string (list string) unit
    "https://management.azure.com" "2021" arm_get arm_json.

(** Portfolios that are the references they were built from. *)
Definition reference (id_ source : string)
    : Portfolios.PortfolioReference unit :=
  {| Portfolios.id := id_; Portfolios.type := tt;
     Portfolios.source := Some source |}.

Definition build (r : Portfolios.PortfolioReference unit) (_ : unit)
    : Portfolios.PortfolioReference unit := r.

End Fixture.

(** * Properties *)

(** ** Loops *)

Lemma for_of_push {A B} (f : B -> A) (xs : list B) (acc : list A) :
  for_of xs (fun acc x => push acc (f x)) acc = acc ++ map f xs.
Proof.
  unfold for_of, push. revert acc.
  induction xs as [|x xs IH]; intros acc; simpl.
  - by rewrite app_nil_r.
  - rewrite IH, <- app_assoc. reflexivity.
Qed.

Lemma listBlobs_page_app container blobs page :
  listBlobs_page container blobs page
  = blobs ++ page_descriptors container page.
Proof.
  unfold listBlobs_page, page_descriptors.
  rewrite !for_of_push, app_assoc. reflexivity.
Qed.

Lemma listBlobs_pages container pages blobs :
  fold_left (listBlobs_page container) pages blobs
  = blobs ++ flat_map (page_descriptors container) pages.
Proof.
  revert blobs. induction pages as [|page pages IH]; intros blobs; simpl.
  - by rewrite app_nil_r.
  - rewrite IH, listBlobs_page_app, <- app_assoc. reflexivity.
Qed.

Lemma listContainers_page_app containers page :
  listContainers_page containers page
  = containers
    ++ map (fun c => {| container_item := c; id := container_name c |})
         (containerItems page).
Proof. unfold listContainers_page. apply for_of_push. Qed.

Section Run.

Context {World : Type}.
Variable sdk : Handler World.
Variable platform : Platform.

Implicit Types st : State (World := World).

(** The loop consumes every page the iterator yields, and throws what the
    iterator fails with. *)
Lemma for_await_run {P A} (it : PagedAsyncIterator P) (body : A -> P -> A)
    (acc : A) st :
  for_await it body acc st
  = (match failure it with
     | Some e => Throw e
     | None => Ok (fold_left body (yielded it) acc)
     end, st).
Proof.
  revert acc. induction it as [| e | page rest IH]; intros acc; simpl.
  - reflexivity.
  - reflexivity.
  - apply IH.
Qed.

(** What [listBlobs] does in every case: one request, every page drained,
    the token handed back as it came in. *)
Lemma listBlobs_run st container options token :
  listBlobs sdk container options token st
  = (match fst (sdk _ (listBlobs_request (this st) container options token)
                  (world st)) with
     | Ok it =>
         match failure it with
         | Some e => Throw e
         | None =>
             Ok {| data := flat_map (page_descriptors container) (yielded it);
                   continuationToken := token |}
         end
     | Throw e => Throw e
     end,
     after_call st (listBlobs_request (this st) container options token)
       (snd (sdk _ (listBlobs_request (this st) container options token)
               (world st)))).
Proof.
  unfold listBlobs, listBlobs_request, bind, getContainerClient, get_this,
    ret, call, after_call.
  simpl.
  destruct (sdk _ _ (world st)) as [[it | e] w]; simpl; [|reflexivity].
  rewrite for_await_run. destruct (failure it); [reflexivity|].
  by rewrite listBlobs_pages.
Qed.

(** A successful [listBlobs], read backwards. *)
Lemma listBlobs_Ok_inv st container options token r st' :
  listBlobs sdk container options token st = (Ok r, st') ->
  exists it w,
    sdk _ (listBlobs_request (this st) container options token) (world st)
    = (Ok it, w)
    /\ failure it = None
    /\ r = {| data := flat_map (page_descriptors container) (yielded it);
              continuationToken := token |}
    /\ st' = after_call st
               (listBlobs_request (this st) container options token) w.
Proof.
  rewrite listBlobs_run.
  destruct (sdk _ _ (world st)) as [[it | e] w] eqn:E; simpl; [|discriminate].
  destruct (failure it) eqn:F; [discriminate|].
  intros [= <- <-]. exists it, w. auto.
Qed.

(** What [getBlobProperties] does in every case. *)
Lemma getBlobProperties_run st container blobName blobPrefix options :
  getBlobProperties sdk container blobName blobPrefix options st
  = (match fst (sdk _ (BlobGetProperties
                        (ContainerClient_getBlockBlobClient
                           (BlobServiceClient_getContainerClient
                              (storageService (this st)) container)
                           blobName)
                        options) (world st)) with
     | Ok props =>
         Ok {| data :=
                 {| name := blobName;
                    url := container +:+ "/"
                           +:+ (default "" blobPrefix +:+ blobName);
                    isDirectory := false;
                    properties := Some
                      {| contentLength := props_contentLength props;
                         contentType := props_contentType props;
                         creationTime := None;
                         lastModified := props_lastModified props |} |};
               continuationToken := None |}
     | Throw e => Throw e
     end,
     after_call st
       (BlobGetProperties
          (ContainerClient_getBlockBlobClient
             (BlobServiceClient_getContainerClient
                (storageService (this st)) container)
             blobName)
          options)
       (snd (sdk _ (BlobGetProperties
                      (ContainerClient_getBlockBlobClient
                         (BlobServiceClient_getContainerClient
                            (storageService (this st)) container)
                         blobName)
                      options) (world st)))).
Proof.
  unfold getBlobProperties, getBlobClient, getContainerClient, bind, get_this,
    ret, call, after_call.
  simpl.
  destruct (sdk _ _ (world st)) as [[props | e] w]; reflexivity.
Qed.

End Run.

(** Where a listed descriptor comes from. *)
Lemma page_descriptors_inv container page d :
  In d (page_descriptors container page) ->
  (exists p, In p (blobPrefixes (segment page))
             /\ d = directory_descriptor container p)
  \/ (exists i, In i (blobItems (segment page))
              /\ d = file_descriptor container i).
Proof.
  unfold page_descriptors. rewrite in_app_iff, !in_map_iff.
  intros [(p & <- & Hp) | (i & <- & Hi)]; [left | right]; eauto.
Qed.

Lemma listed_descriptor_inv container pages d :
  In d (flat_map (page_descriptors container) pages) ->
  exists page, In page pages
    /\ ((exists p, In p (blobPrefixes (segment page))
                  /\ d = directory_descriptor container p)
        \/ (exists i, In i (blobItems (segment page))
                   /\ d = file_descriptor container i)).
Proof.
  rewrite in_flat_map. intros (page & Hpage & Hd).
  exists page. split; [done|]. by apply page_descriptors_inv.
Qed.

(** ** C1: the envelope of [listBlobs] *)




(** ** C7 and C10: the shape of the descriptors *)

Lemma directory_descriptor_invariant container p :
  descriptor_invariant (directory_descriptor container p).
Proof. reflexivity. Qed.

Lemma file_descriptor_invariant container i :
  descriptor_invariant (file_descriptor container i).
Proof. unfold descriptor_invariant. simpl. eauto. Qed.

(** C7.  Every descriptor [listBlobs] returns satisfies the invariant: one
    with [isDirectory = true] carries no [properties], one with
    [isDirectory = false] carries the properties bag.  The descriptor
    [getBlobProperties] returns is a file and carries the bag. *)
Theorem descriptors_satisfy_invariant {World} (sdk : Handler World)
    (st : State (World := World)) container :
  (forall options token r st',
      listBlobs sdk container options token st = (Ok r, st') ->
      Forall descriptor_invariant (data r))
  /\ (forall blobName blobPrefix options r st',
         getBlobProperties sdk container blobName blobPrefix options st
         = (Ok r, st') ->
         isDirectory (data r) = false /\ is_Some (properties (data r))).
Proof.
  split.
  - intros options token r st' H.
    apply listBlobs_Ok_inv in H as (it & w & _ & _ & -> & _). simpl.
    apply List.Forall_forall. intros d Hd.
    apply listed_descriptor_inv in Hd
      as (page & _ & [(p & _ & ->) | (i & _ & ->)]).
    + apply directory_descriptor_invariant.
    + apply file_descriptor_invariant.
  - intros blobName blobPrefix options r st'.
    rewrite getBlobProperties_run.
    destruct (fst _) as [props | e]; [|discriminate].
    intros [= <- _]. simpl. eauto.
Qed.

(** On the fixture: the non-recursive listing of the task folder, and the
    properties of one of its files. *)
Lemma descriptors_satisfy_invariant_witness :
  Forall descriptor_invariant
    [ directory_descriptor "grp-1"
        {| prefix_name := "1001/$TaskOutput/sub/" |};
      file_descriptor "grp-1"
        (MemSdk.to_item "1001/$TaskOutput/a.txt" (Example.text_blob "alpha"));
      file_descriptor "grp-1"
        (MemSdk.to_item "1001/$TaskOutput/bom.txt"
           (Example.blob_of (Utf8.encode [0xFEFF; 0x68; 0xE9]%N)));
      file_descriptor "grp-1"
        (MemSdk.to_item "1001/$TaskOutput/z.txt"
           (Example.blob_of (Utf8.encode [0x68; 0xE9; 0x20AC]%N))) ]
  /\ exists r,
       fst (getBlobProperties MemSdk.handle "grp-1" "1001/$TaskOutput/a.txt"
              None None Example.state) = Ok r
       /\ isDirectory (data r) = false
       /\ is_Some (properties (data r)).
Proof.
  split.
  - eapply (proj1 (descriptors_satisfy_invariant MemSdk.handle Example.state
                     "grp-1")
              (Example.task_output None None) None
              {| data := _; continuationToken := None |}).
    vm_compute. reflexivity.
  - eexists. split; [vm_compute; reflexivity|].
    eapply (proj2 (descriptors_satisfy_invariant MemSdk.handle Example.state
                     "grp-1")
              "1001/$TaskOutput/a.txt" None None).
    vm_compute. reflexivity.
Defined.

(** C10.  Whatever creation time the source reports for a blob, the
    [creationTime] of every file descriptor [listBlobs] returns, and of the
    descriptor [getBlobProperties] returns, is null. *)
Theorem creationTime_is_never_populated {World} (sdk : Handler World)
    (st : State (World := World)) container :
  (forall options token r st',
      listBlobs sdk container options token st = (Ok r, st') ->
      forall d p, d ∈ data r -> properties d = Some p ->
                  creationTime p = None)
  /\ (forall blobName blobPrefix options r st',
         getBlobProperties sdk container blobName blobPrefix options st
         = (Ok r, st') ->
         exists p, properties (data r) = Some p /\ creationTime p = None).
Proof.
  split.
  - intros options token r st' H d p Hd Hp.
    apply listBlobs_Ok_inv in H as (it & w & _ & _ & -> & _). simpl in Hd.
    apply list_elem_of_In, listed_descriptor_inv in Hd
      as (page & _ & [(q & _ & ->) | (i & _ & ->)]); simpl in Hp.
    + discriminate.
    + by injection Hp as <-.
  - intros blobName blobPrefix options r st'.
    rewrite getBlobProperties_run.
    destruct (fst _) as [props | e]; [|discriminate].
    intros [= <- _]. simpl. eauto.
Qed.

(** On the fixture the source reports a creation time for every blob, and
    the descriptors carry none. *)
Lemma creationTime_is_never_populated_witness :
  (exists it,
      fst (MemSdk.handle _
             (listBlobs_request Example.proxy "grp-1"
                (Example.task_output (Some true) None) None)
             Example.account) = Ok it
      /\ Forall (fun i => item_createdOn (item_properties i)
                          = Some 1600000000000%Z)
           (flat_map (fun page => blobItems (segment page)) (yielded it)))
  /\ (exists r,
        fst (listBlobs MemSdk.handle "grp-1"
               (Example.task_output (Some true) None) None Example.state)
        = Ok r
        /\ forall d p, d ∈ data r -> properties d = Some p ->
                       creationTime p = None).
Proof.
  split.
  - eexists. split; [vm_compute; reflexivity|].
    vm_compute. repeat constructor.
  - eexists. split; [vm_compute; reflexivity|].
    eapply (proj1 (creationTime_is_never_populated MemSdk.handle
                     Example.state "grp-1")
              (Example.task_output (Some true) None) None).
    vm_compute. reflexivity.
Defined.

(** ** C4: the delimiter *)

Lemma honours_no_delimiter_flat container prefix pages :
  honours_delimiter None prefix pages = true ->
  flat_map (page_descriptors container) pages
  = map (file_descriptor container)
      (flat_map (fun page => blobItems (segment page)) pages).
Proof.
  induction pages as [|page pages IH]; simpl; [done|].
  intros [Hpage Hrest]%andb_prop.
  rewrite map_app, <- IH by done. f_equal.
  unfold page_descriptors. unfold page_honours in Hpage.
  by destruct (blobPrefixes (segment page)).
Qed.

Lemma honours_delimiter_descriptors container d prefix pages :
  honours_delimiter (Some d) prefix pages = true ->
  Forall
    (fun desc =>
       if isDirectory desc
       then one_level d prefix (name desc) = true
       else nested d prefix (name desc) = false)
    (flat_map (page_descriptors container) pages).
Proof.
  intros H. apply List.Forall_forall. intros desc Hdesc.
  apply listed_descriptor_inv in Hdesc as (page & Hpage & Hfrom).
  unfold honours_delimiter in H.
  rewrite forallb_forall in H. specialize (H page Hpage).
  unfold page_honours in H.
  apply andb_prop in H as [Hitems Hprefixes].
  rewrite forallb_forall in Hitems, Hprefixes.
  destruct Hfrom as [(p & Hp & ->) | (i & Hi & ->)]; simpl.
  - by apply Hprefixes.
  - by apply negb_true_iff, Hitems.
Qed.



(** ** C5: [getBlobProperties] passes failures through *)

(** C5.  [getBlobProperties] sends one [getProperties] request for the one
    blob client it builds.  It throws exactly when that request throws, and
    then throws the same error; when the request succeeds it returns the
    metadata of that blob. *)
Theorem getBlobProperties_propagates {World} (sdk : Handler World)
    (st : State (World := World)) container blobName blobPrefix options :
  let request :=
    BlobGetProperties
      (ContainerClient_getBlockBlobClient
         (BlobServiceClient_getContainerClient (storageService (this st))
            container)
         blobName)
      options in
  (forall e,
      fst (getBlobProperties sdk container blobName blobPrefix options st)
      = Throw e
      <-> fst (sdk _ request (world st)) = Throw e)
  /\ (forall props,
         fst (sdk _ request (world st)) = Ok props ->
         fst (getBlobProperties sdk container blobName blobPrefix options st)
         = Ok {| data :=
                   {| name := blobName;
                      url := container +:+ "/"
                             +:+ (default "" blobPrefix +:+ blobName);
                      isDirectory := false;
                      properties := Some
                        {| contentLength := props_contentLength props;
                           contentType := props_contentType props;
                           creationTime := None;
                           lastModified := props_lastModified props |} |};
                 continuationToken := None |})
  /\ snd (getBlobProperties sdk container blobName blobPrefix options st)
     = after_call st request (snd (sdk _ request (world st))).
Proof.
  intros request. rewrite getBlobProperties_run. fold request. simpl.
  split; [|split; [|reflexivity]].
  - intros e.
    destruct (fst (sdk _ request (world st))) as [props|e'];
      split; intros H; (discriminate H || by injection H as ->).
  - by intros props ->.
Qed.

(** In the in-memory account a blob that does not exist is a not-found
    failure of [getProperties]; the proxy hands it on as it is. *)
Lemma getBlobProperties_not_found (st : State (World := MemSdk.Account))
    container blobName blobPrefix options c :
  MemSdk.containers (world st) !! container = Some c ->
  MemSdk.blobs c !! blobName = None ->
  fst (getBlobProperties MemSdk.handle container blobName blobPrefix options
         st)
  = Throw (RestError "BlobNotFound" 404).
Proof.
  intros Hc Hb. rewrite getBlobProperties_run. simpl.
  unfold MemSdk.getProperties, MemSdk.find_blob. simpl.
  by rewrite Hc, Hb.
Qed.

(** On the fixture: a blob that exists, and one that does not. *)
Lemma getBlobProperties_propagates_witness :
  fst (getBlobProperties MemSdk.handle "grp-1" "other.bin" None None
         Example.state)
  = Ok {| data :=
            {| name := "other.bin";
               url := "grp-1/other.bin";
               isDirectory := false;
               properties := Some
                 {| contentLength := Some 1%N;
                    contentType := Some "text/plain";
                    creationTime := None;
                    lastModified := Some 1600000500000%Z |} |};
          continuationToken := None |}
  /\ fst (getBlobProperties MemSdk.handle "grp-1" "missing.txt" None None
            Example.state)
     = Throw (RestError "BlobNotFound" 404).
Proof.
  split.
  - etransitivity.
    + eapply (proj1 (proj2 (getBlobProperties_propagates MemSdk.handle
                              Example.state "grp-1" "other.bin" None None))).
      vm_compute. reflexivity.
    + reflexivity.
  - apply (proj1 (getBlobProperties_propagates MemSdk.handle Example.state
                    "grp-1" "missing.txt" None None)).
    vm_compute. reflexivity.
Defined.

(** ** C9: [generateSasUrl] without an access policy *)

(** C9.  Without an access policy, [generateSasUrl] throws a [TypeError]
    from the dereference, for every container and blob argument and
    whatever the SDK is: the state, and with it the log of SDK requests, is
    as before.  It returns normally only when an access policy is given. *)
Theorem generateSasUrl_needs_accessPolicy {World} (sdk : Handler World)
    (st : State (World := World)) container blob :
  generateSasUrl sdk container blob None st
  = (Throw (TypeError
              "Cannot read properties of undefined (reading 'AccessPolicy')"),
     st)
  /\ (forall accessPolicy url st',
         generateSasUrl sdk container blob accessPolicy st = (Ok url, st') ->
         exists policy, accessPolicy = Some policy).
Proof.
  split; [reflexivity|].
  intros [policy|] url st' H; [eauto|discriminate].
Qed.

(** On the fixture: a read-only policy yields a signed blob URL after two
    SDK requests; no policy yields the throw and no request. *)
Lemma generateSasUrl_needs_accessPolicy_witness :
  (exists st',
      generateSasUrl MemSdk.handle "grp-1" (Some "other.bin")
        (Some (Example.policy "r")) Example.state
      = (Ok "https://acct.blob.core.windows.net/grp-1/other.bin?sp=r", st')
      /\ length (calls st') = 2
      /\ exists policy, Some (Example.policy "r") = Some policy)
  /\ calls (snd (generateSasUrl MemSdk.handle "grp-1" (Some "other.bin") None
                   Example.state)) = [].
Proof.
  split.
  - eexists. split; [vm_compute; reflexivity|]. split; [reflexivity|].
    eapply (proj2 (generateSasUrl_needs_accessPolicy MemSdk.handle
                     Example.state "grp-1" (Some "other.bin"))).
    vm_compute. reflexivity.
  - by rewrite (proj1 (generateSasUrl_needs_accessPolicy MemSdk.handle
                         Example.state "grp-1" (Some "other.bin"))).
Defined.

(** ** C2: [getUrl] *)

(** What [getUrl] composes, for every argument: no request, no throw. *)
Lemma getUrl_run {World} (st : State (World := World)) container blob
    sasToken :
  getUrl container blob sasToken st
  = (Ok (("https://" +:+ accountName (credential (this st)) +:+ "."
          +:+ blobEndpoint (this st))
         +:+ "/" +:+ container +:+ "/"
         +:+ match truthy blob with
             | Some blob => "/" +:+ blob +:+ interpolate sasToken
             | None => join_element sasToken
             end), st).
Proof.
  unfold getUrl, bind, get_this, ret. simpl.
  by destruct (truthy blob).
Qed.

(** Without a blob the URL is the container's, followed by the token or by
    nothing. *)
Lemma getUrl_container {World} (st : State (World := World)) container
    sasToken :
  getUrl container None sasToken st
  = (Ok (("https://" +:+ accountName (credential (this st)) +:+ "."
          +:+ blobEndpoint (this st))
         +:+ "/" +:+ container +:+ "/" +:+ join_element sasToken), st).
Proof. apply getUrl_run. Qed.

(** C2 (the code at the failing input).  For a blob, [getUrl] puts two
    slashes between the container and the blob path, where the claim has
    one. *)
Theorem getUrl_blob_double_slash :
  getUrl "grp-1" (Some "1001/out.txt") (Some "?sv=2020&sig=abc") Example.state
  = (Ok "https://acct.blob.core.windows.net/grp-1//1001/out.txt?sv=2020&sig=abc",
     Example.state)
  /\ fst (getUrl "grp-1" (Some "1001/out.txt") (Some "?sv=2020&sig=abc")
            Example.state)
     <> Ok ("https://" +:+ accountName (credential Example.proxy) +:+ "."
            +:+ blobEndpoint Example.proxy +:+ "/" +:+ "grp-1" +:+ "/"
            +:+ "1001/out.txt" +:+ "?sv=2020&sig=abc").
Proof.
  split; [reflexivity|].
  intros H. vm_compute in H. discriminate H.
Qed.

(** ** C8: the proxy's own state *)

Section Frame.

Context {World : Type}.
Variable sdk : Handler World.
Variable platform : Platform.

Lemma keeps_this_ret {A} (a : A) : keeps_this (World := World) (ret a).
Proof. by intros st. Qed.

Lemma keeps_this_throw {A} e : keeps_this (World := World) (A := A) (throw e).
Proof. by intros st. Qed.

Lemma keeps_this_lift {A} (r : result A) :
  keeps_this (World := World) (lift r).
Proof. by intros st. Qed.

Lemma keeps_this_get : keeps_this (World := World) get_this.
Proof. by intros st. Qed.

Lemma keeps_this_call {X} (c : SdkCall X) : keeps_this (call sdk c).
Proof. intros st. unfold call. by destruct (sdk X c (world st)). Qed.

Lemma keeps_this_bind {A B} (m : M (World := World) A) (k : A -> M B) :
  keeps_this m -> (forall a, keeps_this (k a)) -> keeps_this (bind m k).
Proof.
  intros Hm Hk st. unfold bind. specialize (Hm st).
  destruct (m st) as [[a | e] st1]; simpl in *; [|done].
  by rewrite Hk.
Qed.

Lemma keeps_this_for_await {P A} (it : PagedAsyncIterator P)
    (body : A -> P -> A) acc :
  keeps_this (World := World) (for_await it body acc).
Proof. intros st. by rewrite for_await_run. Qed.

End Frame.

Create HintDb frame.
#[local] Hint Resolve keeps_this_ret keeps_this_throw keeps_this_lift
  keeps_this_get keeps_this_call keeps_this_for_await : frame.

(** Walks through a method body, one statement at a time. *)
Ltac frame :=
  repeat first
    [ apply keeps_this_bind; [|intros ?]
    | solve [auto with frame]
    | match goal with
      | |- keeps_this (match ?x with _ => _ end) => destruct x
      end ].

Lemma invoke_keeps_this {World} (sdk : Handler World) platform {A}
    (i : Invocation A) :
  keeps_this (invoke sdk platform i).
Proof.
  destruct i; simpl;
    unfold listBlobs, getBlobProperties, getBlobContent, getBlobToLocalFile,
      deleteBlobIfExists, listContainersWithPrefix, getContainerProperties,
      deleteContainer, createContainer, createContainerIfNotExists,
      generateSasUrl, getUrl, uploadFile, _getBlobAsBuffer, getBlobClient,
      getContainerClient;
    cbv zeta; frame.
Qed.

(** C8.  Every method of the proxy leaves the proxy's fields (the
    credential, the endpoint and the service client) as they were, and so
    does any sequence of calls.  The container and blob clients a call works
    with are built for that call from the proxy's service client, which the
    constructor builds from the credential and the endpoint. *)
Theorem proxy_holds_no_cross_call_state {World} (sdk : Handler World)
    (platform : Platform) :
  (forall A (i : Invocation A) (st : State (World := World)),
      this (snd (invoke sdk platform i st)) = this st)
  /\ (forall invocations (st : State (World := World)),
         this (run_all sdk platform invocations st) = this st)
  /\ (forall (st : State (World := World)) container,
         getContainerClient container st
         = (Ok {| container_service := storageService (this st);
                  containerName := container |}, st))
  /\ (forall (st : State (World := World)) container blobName,
         getBlobClient container blobName st
         = (Ok {| blob_container :=
                    {| container_service := storageService (this st);
                       containerName := container |};
                  blobName := blobName |}, st))
  /\ (forall credential blobEndpoint,
         storageService (new_BlobStorageClientProxy credential blobEndpoint)
         = {| service_url :=
                "https://" +:+ accountName credential +:+ "." +:+ blobEndpoint;
              service_credential := credential |}).
Proof.
  split; [intros A i; apply invoke_keeps_this|].
  split; [|by repeat split].
  intros invocations. unfold run_all.
  induction invocations as [|[A i] invocations IH]; intros st; simpl; [done|].
  rewrite IH. apply invoke_keeps_this.
Qed.

(** ** C3: the "did an action occur" flag *)









(** ** C6: [getBlobContent] *)

(** What [getBlobContent] does in every case: one download, then detection,
    then one of the two decodings. *)
Lemma getBlobContent_run {World} (sdk : Handler World) platform
    (st : State (World := World)) container blob options :
  getBlobContent sdk platform container blob options st
  = (match fst (sdk _ (DownloadToBuffer
                        (ContainerClient_getBlockBlobClient
                           (BlobServiceClient_getContainerClient
                              (storageService (this st)) container) blob)
                        0 None options) (world st)) with
     | Ok buffer =>
         match detectEncodingFromBuffer platform buffer (length buffer) with
         | Ok detected =>
             match truthy (encoding detected) with
             | Some enc =>
                 match TextDecoder_decode platform enc buffer with
                 | Ok text => Ok {| content := text |}
                 | Throw e => Throw e
                 end
             | None => Ok {| content := Buffer_toString platform buffer |}
             end
         | Throw e => Throw e
         end
     | Throw e => Throw e
     end,
     after_call st
       (DownloadToBuffer
          (ContainerClient_getBlockBlobClient
             (BlobServiceClient_getContainerClient
                (storageService (this st)) container) blob)
          0 None options)
       (snd (sdk _ (DownloadToBuffer
                      (ContainerClient_getBlockBlobClient
                         (BlobServiceClient_getContainerClient
                            (storageService (this st)) container) blob)
                      0 None options) (world st)))).
Proof.
  unfold getBlobContent, _getBlobAsBuffer, getBlobClient, getContainerClient,
    bind, get_this, ret, call, lift, after_call.
  simpl.
  destruct (sdk _ _ (world st)) as [[buffer | e] w]; simpl; [|reflexivity].
  destruct (detectEncodingFromBuffer platform buffer (length buffer))
    as [detected | e]; [|reflexivity].
  destruct (truthy (encoding detected)) as [enc|]; [|reflexivity].
  by destruct (TextDecoder_decode platform enc buffer).
Qed.



(** ** The in-memory enumeration honours the delimiter *)

Lemma string_drop_app p s : string_drop (String.length p) (p +:+ s) = s.
Proof. induction p as [|a p IH]; [reflexivity | exact IH]. Qed.

Lemma below_app prefix s : below prefix (default "" prefix +:+ s) = s.
Proof. apply string_drop_app. Qed.

Lemma prefix_refl d : String.prefix d d = true.
Proof.
  induction d as [|a d IH]; simpl; [reflexivity|].
  by destruct (Ascii.ascii_dec a a).
Qed.

(** A prefix of a truncated string is a prefix of the string. *)
Lemma prefix_substring d m s :
  String.prefix d (String.substring 0 m s) = true -> String.prefix d s = true.
Proof.
  revert m s. induction d as [|a d IH]; intros m s; [by destruct s|].
  destruct s as [|b s]; [by destruct m|].
  destruct m as [|m]; simpl; [discriminate|].
  destruct (Ascii.ascii_dec a b); [apply IH | discriminate].
Qed.

Lemma index_cons d b s :
  String.index 0 d (String b s)
  = if String.prefix d (String b s) then Some 0
    else match String.index 0 d s with
         | Some n => Some (S n)
         | None => None
         end.
Proof. reflexivity. Qed.

(** Truncating a string right after the first occurrence of [d] keeps that
    occurrence the first, and puts it at the end. *)
Lemma index_truncate d s i :
  String.index 0 d s = Some i ->
  String.index 0 d (String.substring 0 (i + String.length d) s) = Some i
  /\ String.length (String.substring 0 (i + String.length d) s)
     = i + String.length d.
Proof.
  revert i. induction s as [|b s IH]; intros i Hi.
  - destruct d; [|discriminate]. by injection Hi as <-.
  - rewrite index_cons in Hi.
    destruct (String.prefix d (String b s)) eqn:Hprefix.
    + injection Hi as <-.
      change (0 + String.length d) with (String.length d).
      apply String.prefix_correct in Hprefix. rewrite Hprefix.
      split; [|reflexivity].
      destruct d as [|a d]; [reflexivity|].
      by rewrite index_cons, prefix_refl.
    + destruct (String.index 0 d s) as [n|]; [|discriminate].
      injection Hi as <-.
      destruct (IH n eq_refl) as [Hindex Hlength].
      change (String.substring 0 (S n + String.length d) (String b s))
        with (String b (String.substring 0 (n + String.length d) s)).
      split; [|simpl; by rewrite Hlength].
      rewrite index_cons, Hindex.
      destruct (String.prefix d
                  (String b (String.substring 0 (n + String.length d) s)))
        eqn:Hprefix'; [|reflexivity].
      apply (prefix_substring d (S (n + String.length d)) (String b s))
        in Hprefix'.
      congruence.
Qed.

Lemma classify_honours delimiter prefix name b :
  entry_honours delimiter prefix (MemSdk.classify delimiter prefix name b)
  = true.
Proof.
  unfold MemSdk.classify. destruct delimiter as [d|]; [|reflexivity].
  destruct (String.index 0 d (below prefix name)) as [i|] eqn:Hindex; simpl.
  - unfold one_level. rewrite below_app.
    destruct (index_truncate _ _ _ Hindex) as [-> ->].
    apply Nat.eqb_refl.
  - unfold nested. simpl. by rewrite Hindex.
Qed.

Lemma add_entry_honours delimiter prefix acc e :
  Forall (fun e => entry_honours delimiter prefix e = true) acc ->
  entry_honours delimiter prefix e = true ->
  Forall (fun e => entry_honours delimiter prefix e = true)
    (MemSdk.add_entry acc e).
Proof.
  intros Hacc He. unfold MemSdk.add_entry.
  destruct e; [destruct (MemSdk.listed _ _); [done|]|];
    apply Forall_app; split; auto.
Qed.

Lemma enumerate_honours delimiter prefix c :
  Forall (fun e => entry_honours delimiter prefix e = true)
    (MemSdk.enumerate delimiter prefix c).
Proof.
  unfold MemSdk.enumerate.
  generalize (MemSdk.sorted_blobs c). intros l.
  assert (Hnil : Forall (fun e => entry_honours delimiter prefix e = true)
                   (@nil MemSdk.Entry)) by constructor.
  revert Hnil. generalize (@nil MemSdk.Entry).
  induction l as [|[name b] l IH]; intros acc Hacc; simpl; [done|].
  apply IH. destruct (String.prefix _ name); [|done].
  apply add_entry_honours; [done | apply classify_honours].
Qed.

Lemma resume_Forall (P : MemSdk.Entry -> Prop) marker es :
  Forall P es -> Forall P (MemSdk.resume marker es).
Proof.
  induction 1 as [|e es He Hes IH]; simpl; [constructor|].
  destruct (String.eqb _ marker); [by constructor | exact IH].
Qed.

Lemma chunks_Forall {A} (P : A -> Prop) fuel size (l : list A) :
  Forall P l -> Forall (Forall P) (MemSdk.chunks fuel size l).
Proof.
  revert l. induction fuel as [|fuel IH]; intros l Hl; simpl; [constructor|].
  destruct l as [|x l]; [constructor|].
  constructor; [by apply Forall_take|]. apply IH. by apply Forall_drop.
Qed.

Lemma to_page_honours delimiter prefix chunk next :
  Forall (fun e => entry_honours delimiter prefix e = true) chunk ->
  page_honours delimiter prefix (MemSdk.to_page chunk next) = true.
Proof.
  unfold page_honours. simpl.
  destruct delimiter as [d|].
  - induction 1 as [|[p | i] chunk He Hchunk IH]; [reflexivity|..];
      simpl in *; apply andb_prop in IH as [Hitems Hprefixes].
    + apply andb_true_intro. split; [exact Hitems|].
      apply andb_true_intro. by split.
    + apply andb_true_intro. split; [|exact Hprefixes].
      apply andb_true_intro. by split.
  - induction 1 as [|[p | i] chunk He Hchunk IH]; [reflexivity|..];
      simpl in *; [discriminate | exact IH].
Qed.

Lemma to_pages_honours delimiter prefix cs :
  Forall (Forall (fun e => entry_honours delimiter prefix e = true)) cs ->
  honours_delimiter delimiter prefix (MemSdk.to_pages cs) = true.
Proof.
  unfold honours_delimiter.
  induction cs as [|c cs IH]; intros H; simpl; [reflexivity|].
  apply Forall_cons in H as [Hc Hcs].
  by rewrite to_page_honours, IH.
Qed.

Lemma paginate_honours delimiter prefix size es :
  Forall (fun e => entry_honours delimiter prefix e = true) es ->
  honours_delimiter delimiter prefix (MemSdk.paginate size es) = true.
Proof.
  intros Hes. unfold MemSdk.paginate.
  set (n := match size with
            | Some n => Nat.max 1 (N.to_nat n)
            | None => Nat.max 1 (length es)
            end).
  pose proof (to_pages_honours delimiter prefix
                (MemSdk.chunks (length es) n es)
                (chunks_Forall _ _ _ _ Hes)) as H.
  destruct (MemSdk.to_pages _); [|exact H].
  unfold honours_delimiter. simpl.
  by rewrite (to_page_honours delimiter prefix [] None) by constructor.
Qed.

Lemma yielded_of_pages {P} (ps : list P) : yielded (of_pages ps) = ps.
Proof. induction ps as [|p ps IH]; simpl; [done | by rewrite IH]. Qed.

(** Whatever the account holds, the pages the in-memory enumeration yields
    honour the delimiter it is asked with. *)
Lemma MemSdk_honours_delimiter client delimiter prefix token size w it :
  MemSdk.listBlobsByHierarchy client delimiter prefix token size w = Ok it ->
  honours_delimiter delimiter prefix (yielded it) = true.
Proof.
  unfold MemSdk.listBlobsByHierarchy.
  destruct (bool_decide _); [discriminate|].
  destruct (MemSdk.containers w !! containerName client) as [c|];
    intros [= <-]; [|reflexivity].
  rewrite yielded_of_pages. apply paginate_honours.
  destruct token as [marker|]; [apply resume_Forall|];
    apply enumerate_honours.
Qed.

(** Against the in-memory account the delimiter is honoured whatever the
    account holds: without [recursive] no file lies below a virtual
    directory and every directory is one level deep; with it, nothing is a
    directory. *)
Lemma listBlobs_in_memory_delimiter (st : State (World := MemSdk.Account))
    container options token r st' :
  listBlobs MemSdk.handle container options token st = (Ok r, st') ->
  if truthy_bool (recursive (default no_ListBlobOptions options))
  then Forall (fun d => isDirectory d = false) (data r)
  else Forall
         (fun d =>
            if isDirectory d
            then one_level "/" (folder (default no_ListBlobOptions options))
                   (name d) = true
            else nested "/" (folder (default no_ListBlobOptions options))
                   (name d) = false)
         (data r).
Proof.
  intros H. apply listBlobs_Ok_inv in H as (it & w & Hsdk & _ & -> & _).
  unfold listBlobs_request in Hsdk. simpl in Hsdk.
  injection Hsdk as Hsdk _. apply MemSdk_honours_delimiter in Hsdk.
  simpl. destruct (truthy_bool _).
  - rewrite (honours_no_delimiter_flat _ _ _ Hsdk).
    apply List.Forall_forall. intros d (i & <- & _)%in_map_iff. reflexivity.
  - by apply honours_delimiter_descriptors.
Qed.

Lemma chunks_concat {A} fuel size (l : list A) :
  1 <= size -> length l <= fuel ->
  concat (MemSdk.chunks fuel size l) = l.
Proof.
  intros Hsize. revert l.
  induction fuel as [|fuel IH]; intros l Hl; simpl.
  - destruct l; [reflexivity | simpl in Hl; lia].
  - destruct l as [|x l]; [reflexivity|].
    simpl. rewrite IH; [apply take_drop|].
    rewrite length_drop. simpl in *. lia.
Qed.

Lemma to_pages_items cs :
  flat_map (fun page => blobItems (segment page)) (MemSdk.to_pages cs)
  = omap MemSdk.entry_item (concat cs).
Proof.
  induction cs as [|c cs IH]; simpl; [reflexivity|].
  by rewrite IH, omap_app.
Qed.

Lemma paginate_items size es :
  flat_map (fun page => blobItems (segment page)) (MemSdk.paginate size es)
  = omap MemSdk.entry_item es.
Proof.
  unfold MemSdk.paginate.
  set (n := match size with
            | Some n => Nat.max 1 (N.to_nat n)
            | None => Nat.max 1 (length es)
            end).
  assert (Hn : 1 <= n) by (subst n; destruct size; lia).
  pose proof (to_pages_items (MemSdk.chunks (length es) n es)) as H.
  rewrite chunks_concat in H by (done || lia).
  destruct (MemSdk.to_pages _); [|exact H].
  simpl in *. by rewrite <- H.
Qed.

(** Without a delimiter the in-memory enumeration lists every blob under
    the prefix, in the order of the names. *)
Lemma enumerate_flat prefix c :
  MemSdk.enumerate None prefix c
  = map (fun nb => MemSdk.ItemEntry (MemSdk.to_item nb.1 nb.2))
      (List.filter (fun nb => String.prefix (default "" prefix) nb.1)
         (MemSdk.sorted_blobs c)).
Proof.
  unfold MemSdk.enumerate.
  rewrite <- (app_nil_l (map _ _)).
  generalize (@nil MemSdk.Entry). generalize (MemSdk.sorted_blobs c).
  intros l. induction l as [|[name b] l IH]; intros acc; simpl.
  - by rewrite app_nil_r.
  - rewrite IH. destruct (String.prefix _ name); simpl; [|reflexivity].
    by rewrite <- app_assoc.
Qed.

(** With [recursive], a listing from the start returns every blob of the
    container under the folder, each as a file, whatever the page size. *)
Lemma listBlobs_in_memory_recursive (st : State (World := MemSdk.Account))
    container options c r st' :
  truthy_bool (recursive (default no_ListBlobOptions options)) = true ->
  MemSdk.containers (world st) !! container = Some c ->
  listBlobs MemSdk.handle container options None st = (Ok r, st') ->
  data r
  = map (fun nb => file_descriptor container (MemSdk.to_item nb.1 nb.2))
      (List.filter
         (fun nb =>
            String.prefix
              (default "" (folder (default no_ListBlobOptions options)))
              nb.1)
         (MemSdk.sorted_blobs c))
  /\ forall name b,
       MemSdk.blobs c !! name = Some b ->
       String.prefix
         (default "" (folder (default no_ListBlobOptions options))) name
       = true ->
       file_descriptor container (MemSdk.to_item name b) ∈ data r.
Proof.
  intros Hrecursive Hc H.
  apply listBlobs_Ok_inv in H as (it & w & Hsdk & _ & -> & _).
  unfold listBlobs_request in Hsdk. rewrite Hrecursive in Hsdk.
  simpl in Hsdk. injection Hsdk as Hsdk _.
  pose proof (MemSdk_honours_delimiter _ _ _ _ _ _ _ Hsdk) as Hhonours.
  unfold MemSdk.listBlobsByHierarchy in Hsdk. simpl in Hsdk.
  rewrite Hc in Hsdk. injection Hsdk as <-.
  rewrite yielded_of_pages in *. simpl.
  rewrite (honours_no_delimiter_flat _ _ _ Hhonours), paginate_items,
    enumerate_flat.
  assert (Hdata :
    map (file_descriptor container)
      (omap MemSdk.entry_item
         (map (fun nb => MemSdk.ItemEntry (MemSdk.to_item nb.1 nb.2))
            (List.filter
               (fun nb =>
                  String.prefix
                    (default ""
                       (folder (default no_ListBlobOptions options))) nb.1)
               (MemSdk.sorted_blobs c))))
    = map (fun nb => file_descriptor container (MemSdk.to_item nb.1 nb.2))
        (List.filter
           (fun nb =>
              String.prefix
                (default ""
                   (folder (default no_ListBlobOptions options))) nb.1)
           (MemSdk.sorted_blobs c))).
  { induction (List.filter _ _) as [|nb l IH]; simpl; [done|].
    by rewrite <- IH. }
  rewrite Hdata. split; [reflexivity|].
  intros name b Hb Hprefix.
  apply list_elem_of_In, in_map_iff. exists (name, b). split; [reflexivity|].
  apply filter_In. split; [|exact Hprefix].
  apply list_elem_of_In. unfold MemSdk.sorted_blobs.
  rewrite merge_sort_Permutation. by apply elem_of_map_to_list.
Qed.

(** ** The reference decoder inverts the encoder *)

(** Linear arithmetic with division and remainder by constants. *)
Ltac lia_div := zify; Z.to_euclidean_division_equations; lia.

Lemma byte_of_to_N n : (n < 256)%N -> Byte.to_N (Utf8.byte_of n) = n.
Proof.
  intros Hn. unfold Utf8.byte_of.
  destruct (Byte.of_N n) as [b|] eqn:Hb; simpl.
  - by apply Byte.to_of_N.
  - apply Byte.of_N_None_iff in Hb. lia.
Qed.

Lemma within_true lo hi b :
  (lo <= b)%N -> (b <= hi)%N -> Utf8.within lo hi b = true.
Proof.
  intros Hlo Hhi. unfold Utf8.within.
  by rewrite (proj2 (N.leb_le _ _) Hlo), (proj2 (N.leb_le _ _) Hhi).
Qed.

Lemma within_false lo hi b :
  (b < lo)%N \/ (hi < b)%N -> Utf8.within lo hi b = false.
Proof.
  unfold Utf8.within. intros [H | H].
  - by rewrite (proj2 (N.leb_gt _ _) H).
  - rewrite (proj2 (N.leb_gt _ _) H). apply andb_false_r.
Qed.

Lemma continuation_true b :
  (0x80 <= b)%N -> (b <= 0xBF)%N -> Utf8.continuation b = true.
Proof. apply within_true. Qed.

(** Settles the range test the decoder makes next. *)
Ltac settle_test :=
  match goal with
  | |- (if N.ltb ?a ?b then _ else _) = _ =>
      first
        [ rewrite (proj2 (N.ltb_lt a b)) by lia_div
        | rewrite (proj2 (N.ltb_ge a b)) by lia_div ]
  | |- (if Utf8.continuation ?b then _ else _) = _ =>
      rewrite (continuation_true b) by lia_div
  | |- (if Utf8.within (if N.eqb ?a ?b then _ else _) _ _ then _ else _)
       = _ =>
      destruct (N.eqb_spec a b)
  | |- (if Utf8.within _ (if N.eqb ?a ?b then _ else _) _ then _ else _)
       = _ =>
      destruct (N.eqb_spec a b)
  | |- (if Utf8.within ?lo ?hi ?b then _ else _) = _ =>
      first
        [ rewrite (within_true lo hi b) by lia_div
        | rewrite (within_false lo hi b) by lia_div ]
  end;
  cbv iota.

Lemma scalar_range c :
  Utf8.scalar c = true ->
  (c < 0xD800 \/ (0xDFFF < c /\ c <= 0x10FFFF))%N.
Proof.
  unfold Utf8.scalar.
  intros [H | [H1 H2]%andb_prop]%orb_prop.
  - left. by apply N.ltb_lt.
  - right. split; [by apply N.ltb_lt | by apply N.leb_le].
Qed.

(** The bytes of a code point all fit in a byte. *)
Lemma encode_point_bytes c :
  Utf8.scalar c = true -> Forall (fun b => (b < 256)%N) (Utf8.encode_point c).
Proof.
  intros Hc%scalar_range. unfold Utf8.encode_point.
  destruct (N.ltb_spec c 0x80); [|destruct (N.ltb_spec c 0x800);
    [|destruct (N.ltb_spec c 0x10000)]];
    repeat constructor; lia_div.
Qed.

(** Decoding the bytes of one scalar value gives it back and goes on with
    the rest. *)
Lemma decode_encode_point c rest :
  Utf8.scalar c = true ->
  Utf8.decode_values (Utf8.encode_point c ++ rest)
  = c :: Utf8.decode_values rest.
Proof.
  intros Hc%scalar_range. unfold Utf8.encode_point.
  destruct (N.ltb_spec c 0x80); [|destruct (N.ltb_spec c 0x800);
    [|destruct (N.ltb_spec c 0x10000)]];
    cbn [app Utf8.decode_values]; repeat settle_test; f_equal; lia_div.
Qed.

Lemma decode_values_encode t :
  Forall (fun c => Utf8.scalar c = true) t ->
  Utf8.decode_values (flat_map Utf8.encode_point t) = t.
Proof.
  induction 1 as [|c t Hc Ht IH]; simpl; [reflexivity|].
  by rewrite decode_encode_point, IH.
Qed.

(** UTF-8 round trip: decoding the encoding of a text of scalar values
    gives the text. *)
Lemma Utf8_decode_encode t :
  Forall (fun c => Utf8.scalar c = true) t ->
  Utf8.decode (Utf8.encode t) = t.
Proof.
  intros Ht. unfold Utf8.decode, Utf8.encode.
  rewrite <- (decode_values_encode t Ht) at 2. f_equal.
  rewrite map_map. rewrite <- (map_id (flat_map _ _)) at 2.
  apply map_ext_in. intros b Hb. apply byte_of_to_N.
  apply in_flat_map in Hb as (c & Hc & Hb).
  rewrite List.Forall_forall in Ht.
  pose proof (encode_point_bytes c (Ht c Hc)) as Hbytes.
  rewrite List.Forall_forall in Hbytes. by apply Hbytes.
Qed.

(** The byte values of an encoded text. *)
Lemma encode_values t :
  Forall (fun c => Utf8.scalar c = true) t ->
  map Byte.to_N (Utf8.encode t) = flat_map Utf8.encode_point t.
Proof.
  intros Ht. unfold Utf8.encode.
  rewrite map_map. rewrite <- (map_id (flat_map _ _)) at 2.
  apply map_ext_in. intros b Hb. apply byte_of_to_N.
  apply in_flat_map in Hb as (c & Hc & Hb).
  rewrite List.Forall_forall in Ht.
  pose proof (encode_point_bytes c (Ht c Hc)) as Hbytes.
  rewrite List.Forall_forall in Hbytes. by apply Hbytes.
Qed.

(** A text encoded behind a byte order mark is detected as UTF-8. *)
Lemma detect_bom t :
  Forall (fun c => Utf8.scalar c = true) t ->
  Utf8.detect (Utf8.encode (Utf8.bom :: t))
    (length (Utf8.encode (Utf8.bom :: t)))
  = Ok {| encoding := Some "utf8"; seemsBinary := false |}.
Proof.
  intros Ht. unfold Utf8.detect.
  rewrite firstn_all, encode_values by (by constructor).
  reflexivity.
Qed.

(** The encoding of a text that does not begin with U+FEFF carries no byte
    order mark. *)
Lemma detect_plain t :
  Forall (fun c => Utf8.scalar c = true) t ->
  head t <> Some Utf8.bom ->
  Utf8.detect (Utf8.encode t) (length (Utf8.encode t))
  = Ok {| encoding := None; seemsBinary := false |}.
Proof.
  intros Ht Hhead. unfold Utf8.detect.
  rewrite firstn_all, encode_values by done.
  destruct Ht as [|c t Hc%scalar_range Ht]; [reflexivity|].
  assert (Hc' : c <> Utf8.bom) by (intros ->; by apply Hhead).
  unfold Utf8.bom in Hc'.
  unfold Utf8.starts_with.
  rewrite !bool_decide_eq_false_2; [reflexivity|..];
    simpl flat_map; unfold Utf8.encode_point;
    destruct (N.ltb_spec c 0x80); [|destruct (N.ltb_spec c 0x800);
      [|destruct (N.ltb_spec c 0x10000)] | |destruct (N.ltb_spec c 0x800);
      [|destruct (N.ltb_spec c 0x10000)] | |destruct (N.ltb_spec c 0x800);
      [|destruct (N.ltb_spec c 0x10000)]];
    cbn [app take length]; intros Heq;
    injection Heq; intros; lia_div.
Qed.

(** UTF-8 round trip through the proxy: against the in-memory account and
    the reference platform, the content of a blob that holds the UTF-8
    encoding of a text, behind a byte order mark or without one, is the
    text.  (A text that itself begins with U+FEFF is read as beginning with
    a byte order mark.) *)
Lemma getBlobContent_utf8_roundtrip (st : State (World := MemSdk.Account))
    container blob options c b text :
  MemSdk.containers (world st) !! container = Some c ->
  MemSdk.blobs c !! blob = Some b ->
  Forall (fun c => Utf8.scalar c = true) text ->
  MemSdk.bytes b = Utf8.encode (Utf8.bom :: text)
  \/ (MemSdk.bytes b = Utf8.encode text /\ head text <> Some Utf8.bom) ->
  fst (getBlobContent MemSdk.handle Utf8.platform container blob options st)
  = Ok {| content := text |}.
Proof.
  intros Hc Hb Htext Hbytes.
  rewrite getBlobContent_run. simpl.
  unfold MemSdk.download, MemSdk.find_blob. simpl.
  rewrite Hc, Hb. simpl. rewrite drop_0.
  destruct Hbytes as [-> | [-> Hhead]].
  - rewrite detect_bom by done.
    change (truthy (encoding {| encoding := Some "utf8";
                                seemsBinary := false |}))
      with (Some "utf8").
    cbv beta iota.
    change (Utf8.text_decoder "utf8" (Utf8.encode (Utf8.bom :: text)))
      with (Ok (A := Text)
              (Utf8.strip_bom
                 (Utf8.decode (Utf8.encode (Utf8.bom :: text))))).
    rewrite Utf8_decode_encode by (by constructor). reflexivity.
  - rewrite detect_plain by done.
    change (truthy (encoding {| encoding := None; seemsBinary := false |}))
      with (@None string).
    cbv beta iota.
    by rewrite Utf8_decode_encode.
Qed.

(** * Further properties of the proxy *)

(** ** Listing containers *)

Lemma listContainers_pages pages containers :
  fold_left listContainers_page pages containers
  = containers
    ++ map (fun c => {| container_item := c; id := container_name c |})
         (flat_map containerItems pages).
Proof.
  revert containers.
  induction pages as [|page pages IH]; intros containers; simpl.
  - by rewrite app_nil_r.
  - by rewrite IH, listContainers_page_app, map_app, app_assoc.
Qed.

(** What [listContainersWithPrefix] does in every case. *)
Lemma listContainersWithPrefix_run {World} (sdk : Handler World)
    (st : State (World := World)) prefix token options :
  listContainersWithPrefix sdk prefix token options st
  = (match fst (sdk _ (listContainers_request (this st) prefix token options)
                  (world st)) with
     | Ok it =>
         match failure it with
         | Some e => Throw e
         | None =>
             Ok {| data :=
                     map (fun c => {| container_item := c;
                                      id := container_name c |})
                       (flat_map containerItems (yielded it));
                   continuationToken := token |}
         end
     | Throw e => Throw e
     end,
     after_call st (listContainers_request (this st) prefix token options)
       (snd (sdk _ (listContainers_request (this st) prefix token options)
               (world st)))).
Proof.
  unfold listContainersWithPrefix, listContainers_request, bind, get_this,
    ret, call, after_call.
  simpl.
  destruct (sdk _ _ (world st)) as [[it | e] w]; simpl; [|reflexivity].
  rewrite for_await_run. destruct (failure it); [reflexivity|].
  by rewrite listContainers_pages.
Qed.

(** X1.  When the source yields its pages without failing,
    [listContainersWithPrefix] returns every container item of every page,
    in the order yielded, each with an [id] equal to its name. *)
Theorem listContainersWithPrefix_annotates {World} (sdk : Handler World)
    (st : State (World := World)) prefix token options it w :
  sdk _ (listContainers_request (this st) prefix token options) (world st)
  = (Ok it, w) ->
  failure it = None ->
  exists r,
    listContainersWithPrefix sdk prefix token options st
    = (Ok r,
       after_call st (listContainers_request (this st) prefix token options)
         w)
    /\ map container_item (data r) = flat_map containerItems (yielded it)
    /\ Forall (fun d => id d = container_name (container_item d)) (data r).
Proof.
  intros E F. rewrite listContainersWithPrefix_run, E. simpl. rewrite F.
  eexists. split; [reflexivity|]. simpl. split.
  - rewrite map_map. simpl. apply map_id.
  - apply List.Forall_forall. intros d (c & <- & _)%in_map_iff. reflexivity.
Qed.

Lemma listContainersWithPrefix_annotates_witness :
  exists r st',
    listContainersWithPrefix MemSdk.handle "da" None None Fixture.state
    = (Ok r, st')
    /\ map id (data r) = ["data"].
Proof.
  edestruct (listContainersWithPrefix_annotates MemSdk.handle Fixture.state
               "da" None None)
    as (r & Hrun & Hitems & Hids);
    [vm_compute; reflexivity | reflexivity |].
  exists r. eexists. split; [exact Hrun|].
  rewrite listContainersWithPrefix_run in Hrun.
  vm_compute in Hrun. by injection Hrun as <-.
Defined.

(** X2.  The options [listContainersWithPrefix] sends are the caller's,
    with the [prefix] argument added under the key "prefix" unless the
    caller's options already have that key, which then wins. *)
Theorem listContainersWithPrefix_options {World} (sdk : Handler World)
    (st : State (World := World)) prefix token
    (options : option StorageRequestOptions) :
  exists sent : StorageRequestOptions,
    calls (snd (listContainersWithPrefix sdk prefix token options st))
    = calls st ++ [logged (ListContainers (storageService (this st)) sent
                             token)]
    /\ sent !! "prefix"
       = Some (default prefix (options ≫= fun o => o !! "prefix"))
    /\ forall key, key <> "prefix" ->
         sent !! key = options ≫= fun o => o !! key.
Proof.
  exists (default ∅ options ∪ {[ "prefix" := prefix ]}).
  rewrite listContainersWithPrefix_run. simpl.
  split; [reflexivity|]. split.
  - rewrite lookup_union, lookup_singleton_eq.
    destruct options as [o|]; simpl; [|by rewrite lookup_empty].
    by destruct (o !! "prefix").
  - intros key Hkey. rewrite lookup_union, lookup_singleton_ne by done.
    destruct options as [o|]; simpl; [|by rewrite lookup_empty].
    by destruct (o !! key).
Qed.

(** ** Failures of the listings *)

(** X3.  [listBlobs] and [listContainersWithPrefix] send one request.  They
    throw exactly when that request throws or the iteration over its pages
    fails, and then throw the same error; pages gathered before a failure
    are not returned. *)
Theorem listings_fail_with_the_source {World} (sdk : Handler World)
    (st : State (World := World)) container options prefix token
    listOptions :
  (forall e,
      fst (listBlobs sdk container options token st) = Throw e
      <-> fst (sdk _ (listBlobs_request (this st) container options token)
                 (world st)) = Throw e
          \/ exists it,
               fst (sdk _ (listBlobs_request (this st) container options
                             token) (world st)) = Ok it
               /\ failure it = Some e)
  /\ calls (snd (listBlobs sdk container options token st))
     = calls st ++ [logged (listBlobs_request (this st) container options
                              token)]
  /\ (forall e,
         fst (listContainersWithPrefix sdk prefix token listOptions st)
         = Throw e
         <-> fst (sdk _ (listContainers_request (this st) prefix token
                           listOptions) (world st)) = Throw e
             \/ exists it,
                  fst (sdk _ (listContainers_request (this st) prefix token
                                listOptions) (world st)) = Ok it
                  /\ failure it = Some e)
  /\ calls (snd (listContainersWithPrefix sdk prefix token listOptions st))
     = calls st ++ [logged (listContainers_request (this st) prefix token
                              listOptions)].
Proof.
  rewrite listBlobs_run, listContainersWithPrefix_run. simpl.
  split; [|split; [reflexivity|split; [|reflexivity]]].
  - intros e.
    destruct (fst (sdk _ (listBlobs_request _ _ _ _) _)) as [it | e'].
    + destruct (failure it) as [e'|] eqn:F; split.
      * intros [= ->]. right. by exists it.
      * intros [H | (it' & [= <-] & H)]; [discriminate H | congruence].
      * discriminate.
      * intros [H | (it' & [= <-] & H)]; [discriminate H | congruence].
    + split.
      * intros [= ->]. by left.
      * intros [[= ->] | (it' & H & _)]; [reflexivity | discriminate H].
  - intros e.
    destruct (fst (sdk _ (listContainers_request _ _ _ _) _)) as [it | e'].
    + destruct (failure it) as [e'|] eqn:F; split.
      * intros [= ->]. right. by exists it.
      * intros [H | (it' & [= <-] & H)]; [discriminate H | congruence].
      * discriminate.
      * intros [H | (it' & [= <-] & H)]; [discriminate H | congruence].
    + split.
      * intros [= ->]. by left.
      * intros [[= ->] | (it' & H & _)]; [reflexivity | discriminate H].
Qed.

(** ** Names and URLs of descriptors *)

(** X4.  Every descriptor [listBlobs] returns has the URL
    [<container>/<name>]. *)
Theorem listBlobs_urls {World} (sdk : Handler World)
    (st : State (World := World)) container options token r st' :
  listBlobs sdk container options token st = (Ok r, st') ->
  Forall (fun d => url d = container +:+ "/" +:+ name d) (data r).
Proof.
  intros H. apply listBlobs_Ok_inv in H as (it & w & _ & _ & -> & _).
  apply List.Forall_forall. intros d Hd.
  by apply listed_descriptor_inv in Hd
    as (page & _ & [(p & _ & ->) | (i & _ & ->)]).
Qed.

Lemma listBlobs_urls_witness :
  exists r st',
    listBlobs MemSdk.handle "data" None None Fixture.state = (Ok r, st')
    /\ map url (data r) = ["data/logs/"; "data/utf16.txt"]
    /\ Forall (fun d => url d = "data" +:+ "/" +:+ name d) (data r).
Proof.
  eexists. eexists. split; [vm_compute; reflexivity|].
  split; [reflexivity|].
  eapply (listBlobs_urls MemSdk.handle Fixture.state "data" None None).
  vm_compute. reflexivity.
Defined.

(** X5.  [getBlobProperties] asks for the blob named [blobName]: the
    [blobPrefix] argument changes nothing in the request, the state left,
    the failure, or the name and properties returned; it only shows in the
    URL of the descriptor, which is [<container>/<blobPrefix><blobName>]. *)
Theorem getBlobProperties_prefix_only_in_url {World} (sdk : Handler World)
    (st : State (World := World)) container blobName prefix1 prefix2
    options :
  snd (getBlobProperties sdk container blobName prefix1 options st)
  = snd (getBlobProperties sdk container blobName prefix2 options st)
  /\ match fst (getBlobProperties sdk container blobName prefix1 options st),
           fst (getBlobProperties sdk container blobName prefix2 options st)
     with
     | Ok r1, Ok r2 =>
         name (data r1) = blobName
         /\ name (data r2) = blobName
         /\ properties (data r1) = properties (data r2)
         /\ url (data r1)
            = container +:+ "/" +:+ (default "" prefix1 +:+ blobName)
     | Throw e1, Throw e2 => e1 = e2
     | _, _ => False
     end.
Proof.
  rewrite !getBlobProperties_run. simpl. split; [reflexivity|].
  by destruct (fst (sdk _ _ (world st))).
Qed.

(** ** Signed URLs *)

(** With an access policy and a blob, [generateSasUrl] parses blob
    permissions and signs the blob's client. *)
Lemma generateSasUrl_blob_run {World} (sdk : Handler World)
    (st : State (World := World)) container blob b policy :
  truthy blob = Some b ->
  generateSasUrl sdk container blob (Some policy) st
  = match sdk _ (ParseBlobSASPermissions
                   (Permissions (AccessPolicy policy))) (world st) with
    | (Ok parsed, w) =>
        (fst (sdk _ (BlobGenerateSasUrl
                       (ContainerClient_getBlockBlobClient
                          (BlobServiceClient_getContainerClient
                             (storageService (this st)) container) b)
                       parsed) w),
         after_call
           (after_call st
              (ParseBlobSASPermissions (Permissions (AccessPolicy policy)))
              w)
           (BlobGenerateSasUrl
              (ContainerClient_getBlockBlobClient
                 (BlobServiceClient_getContainerClient
                    (storageService (this st)) container) b)
              parsed)
           (snd (sdk _ (BlobGenerateSasUrl
                          (ContainerClient_getBlockBlobClient
                             (BlobServiceClient_getContainerClient
                                (storageService (this st)) container) b)
                          parsed) w)))
    | (Throw e, w) =>
        (Throw e,
         after_call st
           (ParseBlobSASPermissions (Permissions (AccessPolicy policy))) w)
    end.
Proof.
  intros Hb.
  unfold generateSasUrl, getBlobClient, getContainerClient, bind, get_this,
    ret, call, after_call.
  simpl. rewrite Hb. simpl.
  destruct (sdk _ (ParseBlobSASPermissions _) (world st))
    as [[parsed | e] w]; simpl; [|reflexivity].
  by destruct (sdk _ (BlobGenerateSasUrl _ _) w).
Qed.

(** With an access policy and no blob, it parses container permissions and
    signs the container's client. *)
Lemma generateSasUrl_container_run {World} (sdk : Handler World)
    (st : State (World := World)) container blob policy :
  truthy blob = None ->
  generateSasUrl sdk container blob (Some policy) st
  = match sdk _ (ParseContainerSASPermissions
                   (Permissions (AccessPolicy policy))) (world st) with
    | (Ok parsed, w) =>
        (fst (sdk _ (ContainerGenerateSasUrl
                       (BlobServiceClient_getContainerClient
                          (storageService (this st)) container)
                       parsed) w),
         after_call
           (after_call st
              (ParseContainerSASPermissions
                 (Permissions (AccessPolicy policy))) w)
           (ContainerGenerateSasUrl
              (BlobServiceClient_getContainerClient
                 (storageService (this st)) container)
              parsed)
           (snd (sdk _ (ContainerGenerateSasUrl
                          (BlobServiceClient_getContainerClient
                             (storageService (this st)) container)
                          parsed) w)))
    | (Throw e, w) =>
        (Throw e,
         after_call st
           (ParseContainerSASPermissions
              (Permissions (AccessPolicy policy))) w)
    end.
Proof.
  intros Hb.
  unfold generateSasUrl, getContainerClient, bind, get_this, ret, call,
    after_call.
  simpl. rewrite Hb. simpl.
  destruct (sdk _ (ParseContainerSASPermissions _) (world st))
    as [[parsed | e] w]; simpl; [|reflexivity].
  by destruct (sdk _ (ContainerGenerateSasUrl _ _) w).
Qed.

(** X6.  The scope of the signed URL follows the [blob] argument: for a
    non-empty blob name and permissions the SDK accepts, the requests are a
    blob-permission parse and a signature on the client of that blob; for
    no blob, or the empty string, a container-permission parse and a
    signature on the container's client.  In both cases the result is the
    answer of the signature request. *)
Theorem generateSasUrl_scope {World} (sdk : Handler World)
    (st : State (World := World)) container blob policy :
  (forall b parsed w,
      truthy blob = Some b ->
      sdk _ (ParseBlobSASPermissions (Permissions (AccessPolicy policy)))
        (world st) = (Ok parsed, w) ->
      fst (generateSasUrl sdk container blob (Some policy) st)
      = fst (sdk _ (BlobGenerateSasUrl
                      (ContainerClient_getBlockBlobClient
                         (BlobServiceClient_getContainerClient
                            (storageService (this st)) container) b)
                      parsed) w)
      /\ calls (snd (generateSasUrl sdk container blob (Some policy) st))
         = calls st
           ++ [ logged (ParseBlobSASPermissions
                          (Permissions (AccessPolicy policy)));
                logged (BlobGenerateSasUrl
                          (ContainerClient_getBlockBlobClient
                             (BlobServiceClient_getContainerClient
                                (storageService (this st)) container) b)
                          parsed) ])
  /\ (forall parsed w,
         truthy blob = None ->
         sdk _ (ParseContainerSASPermissions
                  (Permissions (AccessPolicy policy))) (world st)
         = (Ok parsed, w) ->
         fst (generateSasUrl sdk container blob (Some policy) st)
         = fst (sdk _ (ContainerGenerateSasUrl
                         (BlobServiceClient_getContainerClient
                            (storageService (this st)) container)
                         parsed) w)
         /\ calls (snd (generateSasUrl sdk container blob (Some policy) st))
            = calls st
              ++ [ logged (ParseContainerSASPermissions
                             (Permissions (AccessPolicy policy)));
                   logged (ContainerGenerateSasUrl
                             (BlobServiceClient_getContainerClient
                                (storageService (this st)) container)
                             parsed) ])
  /\ generateSasUrl sdk container (Some "") (Some policy) st
     = generateSasUrl sdk container None (Some policy) st.
Proof.
  split; [|split; [|reflexivity]].
  - intros b parsed w Hb Hparse.
    rewrite (generateSasUrl_blob_run sdk st container blob b policy Hb),
      Hparse.
    simpl. by rewrite <- app_assoc.
  - intros parsed w Hb Hparse.
    rewrite (generateSasUrl_container_run sdk st container blob policy Hb),
      Hparse.
    simpl. by rewrite <- app_assoc.
Qed.

Lemma generateSasUrl_scope_witness :
  fst (generateSasUrl MemSdk.handle "data" (Some "logs/out.txt")
         (Some (Example.policy "rd")) Fixture.state)
  = Ok "https://acct.blob.core.windows.net/data/logs/out.txt?sp=rd"
  /\ fst (generateSasUrl MemSdk.handle "data" (Some "")
            (Some (Example.policy "rl")) Fixture.state)
     = Ok "https://acct.blob.core.windows.net/data?sp=rl".
Proof.
  destruct (generateSasUrl_scope MemSdk.handle Fixture.state "data"
              (Some "logs/out.txt") (Example.policy "rd"))
    as (Hblob & _ & _).
  destruct (generateSasUrl_scope MemSdk.handle Fixture.state "data"
              (Some "") (Example.policy "rl"))
    as (_ & Hcontainer & _).
  split.
  - edestruct Hblob as [-> _]; [reflexivity | vm_compute; reflexivity |].
    reflexivity.
  - edestruct Hcontainer as [-> _]; [reflexivity | vm_compute; reflexivity |].
    reflexivity.
Defined.

(** X7.  When the SDK rejects the permissions string, [generateSasUrl]
    throws the SDK's error and no signature is requested: the parse is the
    only request sent. *)
Theorem generateSasUrl_rejected_permissions {World} (sdk : Handler World)
    (st : State (World := World)) container blob policy e :
  (forall b,
      truthy blob = Some b ->
      fst (sdk _ (ParseBlobSASPermissions
                    (Permissions (AccessPolicy policy))) (world st))
      = Throw e ->
      fst (generateSasUrl sdk container blob (Some policy) st) = Throw e
      /\ calls (snd (generateSasUrl sdk container blob (Some policy) st))
         = calls st ++ [logged (ParseBlobSASPermissions
                                  (Permissions (AccessPolicy policy)))])
  /\ (truthy blob = None ->
      fst (sdk _ (ParseContainerSASPermissions
                    (Permissions (AccessPolicy policy))) (world st))
      = Throw e ->
      fst (generateSasUrl sdk container blob (Some policy) st) = Throw e
      /\ calls (snd (generateSasUrl sdk container blob (Some policy) st))
         = calls st ++ [logged (ParseContainerSASPermissions
                                  (Permissions (AccessPolicy policy)))]).
Proof.
  split.
  - intros b Hb Hparse.
    rewrite (generateSasUrl_blob_run sdk st container blob b policy Hb).
    destruct (sdk _ (ParseBlobSASPermissions _) (world st)) as [[p | e'] w];
      simpl in *; [discriminate|].
    injection Hparse as ->. by split.
  - intros Hb Hparse.
    rewrite (generateSasUrl_container_run sdk st container blob policy Hb).
    destruct (sdk _ (ParseContainerSASPermissions _) (world st))
      as [[p | e'] w]; simpl in *; [discriminate|].
    injection Hparse as ->. by split.
Qed.

Lemma generateSasUrl_rejected_permissions_witness :
  fst (generateSasUrl MemSdk.handle "data" (Some "logs/out.txt")
         (Some (Example.policy "rz")) Fixture.state)
  = Throw (RangeError "Invalid permission: z")
  /\ length (calls (snd (generateSasUrl MemSdk.handle "data"
                           (Some "logs/out.txt")
                           (Some (Example.policy "rz")) Fixture.state)))
     = 1.
Proof.
  destruct (proj1 (generateSasUrl_rejected_permissions MemSdk.handle
                     Fixture.state "data" (Some "logs/out.txt")
                     (Example.policy "rz")
                     (RangeError "Invalid permission: z"))
              "logs/out.txt" eq_refl eq_refl)
    as [-> ->].
  by split.
Defined.

(** ** Methods that hand one request through *)

(** Unfolds a method that sends one request and looks at the answer. *)
Ltac one_request sdk st :=
  intros st;
  unfold getBlobToLocalFile, getContainerProperties, deleteContainer,
    createContainer, uploadFile, _getBlobAsBuffer, getBlobClient,
    getContainerClient, bind, get_this, ret, call, after_call;
  simpl;
  match goal with
  | |- context [sdk ?X ?c (world st)] =>
      by destruct (sdk X c (world st)) as [[x | e] w]
  end.

Lemma getBlobToLocalFile_run {World} (sdk : Handler World) container blob
    localFileName options :
  passes_through sdk
    (getBlobToLocalFile sdk container blob localFileName options)
    (fun this =>
       DownloadToFile
         (ContainerClient_getBlockBlobClient
            (BlobServiceClient_getContainerClient (storageService this)
               container) blob)
         localFileName None None options)
    (fun _ => tt).
Proof. one_request sdk st. Qed.

Lemma getContainerProperties_run {World} (sdk : Handler World) container
    options :
  passes_through sdk (getContainerProperties sdk container options)
    (fun this =>
       ContainerGetProperties
         (BlobServiceClient_getContainerClient (storageService this)
            container) options)
    (fun response => {| data := response; continuationToken := None |}).
Proof. one_request sdk st. Qed.

Lemma deleteContainer_run {World} (sdk : Handler World) container options :
  passes_through sdk (deleteContainer sdk container options)
    (fun this => DeleteContainer (storageService this) container options)
    (fun _ => tt).
Proof. one_request sdk st. Qed.

Lemma createContainer_run {World} (sdk : Handler World) containerName :
  passes_through sdk (createContainer sdk containerName)
    (fun this => CreateContainer (storageService this) containerName)
    (fun _ => tt).
Proof. one_request sdk st. Qed.

Lemma uploadFile_run {World} (sdk : Handler World) container file blobName :
  passes_through sdk (uploadFile sdk container file blobName)
    (fun this =>
       UploadFile
         (ContainerClient_getBlockBlobClient
            (BlobServiceClient_getContainerClient (storageService this)
               container) blobName)
         file)
    (fun response => response).
Proof. one_request sdk st. Qed.

Lemma getBlobAsBuffer_run {World} (sdk : Handler World) container blob
    options :
  passes_through sdk (_getBlobAsBuffer sdk container blob options)
    (fun this =>
       DownloadToBuffer
         (ContainerClient_getBlockBlobClient
            (BlobServiceClient_getContainerClient (storageService this)
               container) blob)
         0 None options)
    (fun buffer => buffer).
Proof. one_request sdk st. Qed.

(** X8.  [getBlobToLocalFile], [getContainerProperties], [deleteContainer],
    [createContainer], [uploadFile] and the private [_getBlobAsBuffer] each
    send exactly one request, built from the arguments; each throws exactly
    when it throws, with the same error, and otherwise returns its answer
    (nothing for the [void] methods, the whole blob for the download). *)
Theorem single_request_methods {World} (sdk : Handler World) :
  (forall container blob localFileName options,
      passes_through sdk
        (getBlobToLocalFile sdk container blob localFileName options)
        (fun this =>
           DownloadToFile
             (ContainerClient_getBlockBlobClient
                (BlobServiceClient_getContainerClient (storageService this)
                   container) blob)
             localFileName None None options)
        (fun _ => tt))
  /\ (forall container options,
         passes_through sdk (getContainerProperties sdk container options)
           (fun this =>
              ContainerGetProperties
                (BlobServiceClient_getContainerClient (storageService this)
                   container) options)
           (fun response =>
              {| data := response; continuationToken := None |}))
  /\ (forall container options,
         passes_through sdk (deleteContainer sdk container options)
           (fun this =>
              DeleteContainer (storageService this) container options)
           (fun _ => tt))
  /\ (forall containerName,
         passes_through sdk (createContainer sdk containerName)
           (fun this => CreateContainer (storageService this) containerName)
           (fun _ => tt))
  /\ (forall container file blobName,
         passes_through sdk (uploadFile sdk container file blobName)
           (fun this =>
              UploadFile
                (ContainerClient_getBlockBlobClient
                   (BlobServiceClient_getContainerClient
                      (storageService this) container) blobName)
                file)
           (fun response => response))
  /\ (forall container blob options,
         passes_through sdk (_getBlobAsBuffer sdk container blob options)
           (fun this =>
              DownloadToBuffer
                (ContainerClient_getBlockBlobClient
                   (BlobServiceClient_getContainerClient
                      (storageService this) container) blob)
                0 None options)
           (fun buffer => buffer)).
Proof.
  repeat split; intros.
  - apply getBlobToLocalFile_run.
  - apply getContainerProperties_run.
  - apply deleteContainer_run.
  - apply createContainer_run.
  - apply uploadFile_run.
  - apply getBlobAsBuffer_run.
Qed.

(** ** What the reading methods never send *)

Section Sends.

Context {World : Type}.
Variable sdk : Handler World.
Variable P : LoggedCall -> Prop.

Lemma sends_only_ret {A} (a : A) : sends_only (World := World) P (ret a).
Proof. intros st. exists []. by rewrite app_nil_r. Qed.

Lemma sends_only_throw {A} e :
  sends_only (World := World) (A := A) P (throw e).
Proof. intros st. exists []. by rewrite app_nil_r. Qed.

Lemma sends_only_lift {A} (r : result A) :
  sends_only (World := World) P (lift r).
Proof. intros st. exists []. by rewrite app_nil_r. Qed.

Lemma sends_only_get : sends_only (World := World) P get_this.
Proof. intros st. exists []. by rewrite app_nil_r. Qed.

Lemma sends_only_call {X} (c : SdkCall X) :
  P (logged c) -> sends_only P (call sdk c).
Proof.
  intros Hc st. exists [logged c]. unfold call.
  destruct (sdk X c (world st)). simpl. by repeat constructor.
Qed.

Lemma sends_only_bind {A B} (m : M (World := World) A) (k : A -> M B) :
  sends_only P m -> (forall a, sends_only P (k a)) ->
  sends_only P (bind m k).
Proof.
  intros Hm Hk st. unfold bind.
  destruct (Hm st) as (new1 & Hcalls1 & Hnew1).
  destruct (m st) as [[a | e] st1]; simpl in *; [|by exists new1].
  destruct (Hk a st1) as (new2 & Hcalls2 & Hnew2).
  exists (new1 ++ new2). rewrite Hcalls2, Hcalls1, app_assoc.
  split; [reflexivity | by apply Forall_app].
Qed.

Lemma sends_only_for_await {Q A} (it : PagedAsyncIterator Q)
    (body : A -> Q -> A) acc :
  sends_only (World := World) P (for_await it body acc).
Proof.
  intros st. exists []. by rewrite for_await_run, app_nil_r.
Qed.

End Sends.

(** Walks through a method body, checking each request it sends. *)
Ltac sends :=
  repeat first
    [ apply sends_only_bind; [|intros ?]
    | apply sends_only_ret
    | apply sends_only_throw
    | apply sends_only_lift
    | apply sends_only_get
    | apply sends_only_for_await
    | apply sends_only_call; reflexivity
    | match goal with
      | |- sends_only _ (match ?x with _ => _ end) => destruct x
      end ].

(** X9.  The methods that list, read, sign or compose ([listBlobs],
    [getBlobProperties], [getBlobContent], [listContainersWithPrefix],
    [getContainerProperties], [generateSasUrl], [getUrl] and the private
    helpers) never send a request that deletes, creates, uploads or writes
    a local file, whatever their arguments and whatever the SDK answers. *)
Theorem read_only_methods_send_no_mutation {World} (sdk : Handler World)
    platform {A} (i : Invocation A) :
  read_only i = true ->
  sends_only (fun c => mutating c = false) (invoke sdk platform i).
Proof.
  destruct i; simpl; try discriminate; intros _;
    unfold listBlobs, getBlobProperties, getBlobContent,
      listContainersWithPrefix, getContainerProperties, generateSasUrl,
      getUrl, _getBlobAsBuffer, getBlobClient, getContainerClient;
    cbv zeta; sends.
Qed.

Lemma read_only_methods_send_no_mutation_witness :
  exists new,
    calls (snd (getBlobContent MemSdk.handle Utf8.platform "data"
                  "logs/out.txt" None Fixture.state))
    = calls Fixture.state ++ new
    /\ Forall (fun c => mutating c = false) new.
Proof.
  exact (read_only_methods_send_no_mutation MemSdk.handle Utf8.platform
           (Call_getBlobContent "data" "logs/out.txt" None) eq_refl
           Fixture.state).
Defined.

(** ** The account under the reading methods *)

(** The in-memory SDK leaves the account as it is on a request that is not
    mutating. *)
Lemma MemSdk_quiet {X} (c : SdkCall X) w :
  mutating (logged c) = false -> snd (MemSdk.handle X c w) = w.
Proof. by destruct c. Qed.

Section Quiet.

Variable platform : Platform.

Lemma keeps_world_ret {A} (a : A) :
  keeps_world (World := MemSdk.Account) (ret a).
Proof. by intros st. Qed.

Lemma keeps_world_throw {A} e :
  keeps_world (World := MemSdk.Account) (A := A) (throw e).
Proof. by intros st. Qed.

Lemma keeps_world_lift {A} (r : result A) :
  keeps_world (World := MemSdk.Account) (lift r).
Proof. by intros st. Qed.

Lemma keeps_world_get : keeps_world (World := MemSdk.Account) get_this.
Proof. by intros st. Qed.

Lemma keeps_world_call {X} (c : SdkCall X) :
  mutating (logged c) = false -> keeps_world (call MemSdk.handle c).
Proof.
  intros Hc st. unfold call.
  pose proof (MemSdk_quiet c (world st) Hc) as H.
  by destruct (MemSdk.handle X c (world st)).
Qed.

Lemma keeps_world_bind {A B} (m : M (World := MemSdk.Account) A)
    (k : A -> M B) :
  keeps_world m -> (forall a, keeps_world (k a)) -> keeps_world (bind m k).
Proof.
  intros Hm Hk st. unfold bind. specialize (Hm st).
  destruct (m st) as [[a | e] st1]; simpl in *; [|done].
  by rewrite Hk.
Qed.

Lemma keeps_world_for_await {Q A} (it : PagedAsyncIterator Q)
    (body : A -> Q -> A) acc :
  keeps_world (World := MemSdk.Account) (for_await it body acc).
Proof. intros st. by rewrite for_await_run. Qed.

End Quiet.

(** Walks through a method body, checking that each request is quiet. *)
Ltac quiet :=
  repeat first
    [ apply keeps_world_bind; [|intros ?]
    | apply keeps_world_ret
    | apply keeps_world_throw
    | apply keeps_world_lift
    | apply keeps_world_get
    | apply keeps_world_for_await
    | apply keeps_world_call; reflexivity
    | match goal with
      | |- keeps_world (match ?x with _ => _ end) => destruct x
      end ].

(** X10.  Against the in-memory account, the methods that list, read, sign
    or compose leave the account and the local files exactly as they were,
    whether they return or throw. *)
Theorem read_only_methods_keep_account platform {A} (i : Invocation A) :
  read_only i = true ->
  keeps_world (invoke MemSdk.handle platform i).
Proof.
  destruct i; simpl; try discriminate; intros _;
    unfold listBlobs, getBlobProperties, getBlobContent,
      listContainersWithPrefix, getContainerProperties, generateSasUrl,
      getUrl, _getBlobAsBuffer, getBlobClient, getContainerClient;
    cbv zeta; quiet.
Qed.

Lemma read_only_methods_keep_account_witness :
  world (snd (listBlobs MemSdk.handle "missing" None None Fixture.state))
  = Fixture.account.
Proof.
  exact (read_only_methods_keep_account Utf8.platform
           (Call_listBlobs "missing" None None) eq_refl Fixture.state).
Defined.

(** ** Edge cases of [getUrl] *)

(** X11.  [getUrl] treats an empty blob name as no blob, and for a
    non-empty blob without a token it appends the text "undefined" to the
    blob path. *)
Theorem getUrl_edge_cases {World} (st : State (World := World)) container :
  (forall sasToken,
      getUrl container (Some "") sasToken st
      = getUrl container None sasToken st)
  /\ (forall blob,
         blob <> "" ->
         getUrl container (Some blob) None st
         = (Ok (("https://" +:+ accountName (credential (this st)) +:+ "."
                 +:+ blobEndpoint (this st))
                +:+ "/" +:+ container +:+ "/" +:+ "/" +:+ blob
                +:+ "undefined"), st)).
Proof.
  split; [reflexivity|].
  intros blob Hblob. rewrite getUrl_run. simpl.
  by destruct (String.eqb_spec blob "").
Qed.

Lemma getUrl_edge_cases_witness :
  getUrl "data" (Some "logs/out.txt") None Fixture.state
  = (Ok "https://acct.blob.core.windows.net/data//logs/out.txtundefined",
     Fixture.state).
Proof.
  rewrite (proj2 (getUrl_edge_cases Fixture.state "data") "logs/out.txt");
    [reflexivity | discriminate].
Defined.

(** ** Failures of [getBlobContent] *)

(** X12.  Once the blob is downloaded, [getBlobContent] throws what the
    detection throws; when an encoding is detected and the decoder rejects
    it, the call throws the decoder's error instead of falling back to the
    raw-byte string; and an empty encoding name counts as no encoding. *)
Theorem getBlobContent_failures {World} (sdk : Handler World) platform
    (st : State (World := World)) container blob options buffer w :
  sdk _ (DownloadToBuffer
           (ContainerClient_getBlockBlobClient
              (BlobServiceClient_getContainerClient
                 (storageService (this st)) container) blob)
           0 None options) (world st) = (Ok buffer, w) ->
  (forall e,
      detectEncodingFromBuffer platform buffer (length buffer) = Throw e ->
      fst (getBlobContent sdk platform container blob options st) = Throw e)
  /\ (forall detected enc e,
         detectEncodingFromBuffer platform buffer (length buffer)
         = Ok detected ->
         truthy (encoding detected) = Some enc ->
         TextDecoder_decode platform enc buffer = Throw e ->
         fst (getBlobContent sdk platform container blob options st)
         = Throw e)
  /\ (forall detected,
         detectEncodingFromBuffer platform buffer (length buffer)
         = Ok detected ->
         encoding detected = Some "" ->
         fst (getBlobContent sdk platform container blob options st)
         = Ok {| content := Buffer_toString platform buffer |}).
Proof.
  intros Hdownload. rewrite getBlobContent_run, Hdownload. simpl.
  repeat split.
  - by intros e ->.
  - by intros detected enc e -> -> ->.
  - by intros detected -> ->.
Qed.

(** On the fixture with the reference platform: a blob that starts with the
    UTF-16 byte order mark is detected as "utf16le", a label the decoder
    does not know. *)
Lemma getBlobContent_failures_witness :
  fst (getBlobContent MemSdk.handle Utf8.platform "data" "utf16.txt" None
         Fixture.state)
  = Throw (RangeError "The encoding label provided ('utf16le') is invalid.").
Proof.
  edestruct (getBlobContent_failures MemSdk.handle Utf8.platform
               Fixture.state "data" "utf16.txt" None)
    as (_ & Hdecoder & _); [vm_compute; reflexivity|].
  eapply Hdecoder; reflexivity.
Defined.

(** ** Container lifecycle against the in-memory account *)





(** ** Upload and download against the in-memory account *)



(** * Properties of the storage account service *)

Lemma prefix_app p s : String.prefix p (p +:+ s) = true.
Proof.
  induction p as [|a p IH]; simpl; [by destruct s|].
  by destruct (Ascii.ascii_dec a a).
Qed.

(** The two forms of an id normalise to the bare id. *)
Lemma formatSubscriptionId_strips_once_helper rest :
  String.prefix "/subscriptions/" rest = false ->
  StorageAccounts.formatSubscriptionId (Some ("/subscriptions/" +:+ rest))
  = Some rest
  /\ StorageAccounts.formatSubscriptionId (Some rest) = Some rest.
Proof.
  intros Hrest. unfold StorageAccounts.formatSubscriptionId.
  by rewrite prefix_app, string_drop_app, Hrest.
Qed.

(** X15.  [formatSubscriptionId] removes one leading "/subscriptions/" and
    nothing else: an id that starts with it loses exactly that prefix, even
    when what follows starts with it again; any other id is returned as it
    is; and no id gives no id. *)
Theorem formatSubscriptionId_strips_once :
  (forall rest,
      StorageAccounts.formatSubscriptionId (Some ("/subscriptions/" +:+ rest))
      = Some rest)
  /\ (forall id,
         String.prefix "/subscriptions/" id = false ->
         StorageAccounts.formatSubscriptionId (Some id) = Some id)
  /\ (forall rest,
         StorageAccounts.formatSubscriptionId
           (StorageAccounts.formatSubscriptionId
              (Some ("/subscriptions/" +:+ "/subscriptions/" +:+ rest)))
         = Some rest)
  /\ StorageAccounts.formatSubscriptionId None = None.
Proof.
  assert (Hstrip : forall rest,
             StorageAccounts.formatSubscriptionId
               (Some ("/subscriptions/" +:+ rest)) = Some rest).
  { intros rest. unfold StorageAccounts.formatSubscriptionId.
    by rewrite prefix_app, string_drop_app. }
  split; [exact Hstrip|]. split; [|split; [|reflexivity]].
  - intros id Hid. unfold StorageAccounts.formatSubscriptionId.
    by rewrite Hid.
  - intros rest. by rewrite !Hstrip.
Qed.

Lemma formatSubscriptionId_strips_once_witness :
  StorageAccounts.formatSubscriptionId (Some "sub1") = Some "sub1".
Proof.
  apply (proj1 (proj2 formatSubscriptionId_strips_once) "sub1").
  reflexivity.
Defined.

Section StorageAccountProperties.

Variable StorageAccount : Type.
Variable Response : Type.
Variable Network : Type.
Variable Endpoints_arm : string.
Variable ApiVersion_arm : string.
Variable httpClient_get : string -> Network -> result Response * Network.
Variable response_json :
  Response -> result (StorageAccounts.ResourceListResponse StorageAccount).

(** X16.  [list] accepts a subscription as a bare id or as the resource
    path "/subscriptions/<id>": both request the same URL,
    [<arm>/subscriptions/<id>/providers/Microsoft.Storage/storageAccounts?api-version=<version>],
    and so give the same result. *)
Theorem list_accepts_both_forms (subscription : string) (net : Network) :
  String.prefix "/subscriptions/" subscription = false ->
  StorageAccounts.list_url Endpoints_arm ApiVersion_arm
    (Some ("/subscriptions/" +:+ subscription))
  = Endpoints_arm +:+ "/subscriptions/" +:+ subscription
    +:+ "/providers/Microsoft.Storage/storageAccounts?api-version="
    +:+ ApiVersion_arm
  /\ StorageAccounts.list_url Endpoints_arm ApiVersion_arm (Some subscription)
     = StorageAccounts.list_url Endpoints_arm ApiVersion_arm
         (Some ("/subscriptions/" +:+ subscription))
  /\ StorageAccounts.list_ StorageAccount Response Network Endpoints_arm
       ApiVersion_arm httpClient_get response_json
       (Some ("/subscriptions/" +:+ subscription)) net
     = StorageAccounts.list_ StorageAccount Response Network Endpoints_arm
         ApiVersion_arm httpClient_get response_json
         (Some subscription) net.
Proof.
  intros Hbare.
  destruct formatSubscriptionId_strips_once_helper
    with (rest := subscription) as [Hfull Hsame]; [exact Hbare|].
  unfold StorageAccounts.list_, StorageAccounts.list_url.
  rewrite Hfull, Hsame. by repeat split.
Qed.

End StorageAccountProperties.

Lemma list_accepts_both_forms_witness :
  Fixture.arm_list (Some "/subscriptions/sub1") tt
  = Fixture.arm_list (Some "sub1") tt
  /\ Fixture.arm_list (Some "sub1") tt = (Ok ["acct1"; "acct2"], tt).
Proof.
  split; [|reflexivity].
  apply (list_accepts_both_forms string (list string) unit
           "https://management.azure.com" "2021" Fixture.arm_get
           Fixture.arm_json "sub1" tt).
  reflexivity.
Defined.


(** * Properties of the portfolio service *)

Section PortfolioProperties.

Variable PortfolioType : Type.
Variable Github : PortfolioType.
Variable Portfolio : Type.
Variable FileSystemService : Type.
Variable fs : FileSystemService.
Variable new_GithubPortfolio :
  Portfolios.PortfolioReference PortfolioType -> FileSystemService ->
  Portfolio.

Local Abbreviation JsMap := (Portfolios.JsMap Portfolio).
Local Abbreviation map_set := (Portfolios.map_set Portfolio).
Local Abbreviation map_get := (Portfolios.map_get Portfolio).
Local Abbreviation processPortfolios :=
  (Portfolios._processPortfolios PortfolioType Portfolio FileSystemService fs
     new_GithubPortfolio).
Local Abbreviation last_with_id := (Portfolios.last_with_id PortfolioType).
Local Abbreviation ref_id := (Portfolios.id PortfolioType).

(** [get] after [set]. *)
Lemma map_get_set key v (m : JsMap) i :
  map_get i (map_set key v m)
  = if String.eqb key i then Some v else map_get i m.
Proof.
  unfold Portfolios.map_get.
  induction m as [|[k v'] m IH]; simpl.
  - by destruct (String.eqb key i).
  - destruct (String.eqb_spec k key) as [-> | Hk]; simpl.
    + by destruct (String.eqb key i).
    + destruct (String.eqb_spec k i) as [-> | Hi]; simpl.
      * destruct (String.eqb_spec key i) as [-> | _]; [done | reflexivity].
      * exact IH.
Qed.

(** The keys after [set]: a new key goes last, a known key stays. *)
Lemma map_set_keys key v (m : JsMap) :
  map fst (map_set key v m)
  = if bool_decide (key ∈ map fst m) then map fst m else map fst m ++ [key].
Proof.
  induction m as [|[k v'] m IH]; simpl; [reflexivity|].
  destruct (String.eqb_spec k key) as [-> | Hk]; simpl.
  - rewrite bool_decide_eq_true_2; [reflexivity | constructor].
  - rewrite IH. destruct (bool_decide (key ∈ map fst m)) eqn:E.
    + apply bool_decide_eq_true in E.
      rewrite bool_decide_eq_true_2; [reflexivity | by constructor].
    + apply bool_decide_eq_false in E.
      rewrite bool_decide_eq_false_2; [reflexivity|].
      intros [? | ?]%elem_of_cons; congruence.
Qed.

Lemma find_app_last {A} (f : A -> bool) l x :
  List.find f (l ++ [x])
  = match List.find f l with
    | Some y => Some y
    | None => if f x then Some x else None
    end.
Proof.
  induction l as [|y l IH]; simpl; [reflexivity|].
  by destruct (f y).
Qed.

Lemma processPortfolios_snoc references r :
  processPortfolios (references ++ [r])
  = map_set (ref_id r) (new_GithubPortfolio r fs)
      (processPortfolios references).
Proof. unfold Portfolios._processPortfolios. by rewrite fold_left_app. Qed.

(** Looking a key up in the processed map finds the portfolio of the last
    reference with that id. *)
Lemma processPortfolios_get references i :
  map_get i (processPortfolios references)
  = (fun r => new_GithubPortfolio r fs) <$> last_with_id i references.
Proof.
  unfold Portfolios.last_with_id.
  induction references as [|r references IH] using rev_ind; [reflexivity|].
  rewrite processPortfolios_snoc, map_get_set, rev_app_distr. simpl.
  destruct (String.eqb (ref_id r) i); [reflexivity | exact IH].
Qed.

Lemma elem_of_first_occurrences (x : string) l :
  x ∈ rev (remove_dups (rev l)) <-> x ∈ rev l.
Proof.
  rewrite list_elem_of_In, <- in_rev, <- list_elem_of_In.
  apply elem_of_remove_dups.
Qed.

(** The keys of the processed map are the ids, each once, in the order in
    which they first occur. *)
Lemma processPortfolios_keys references :
  map fst (processPortfolios references)
  = rev (remove_dups (rev (map ref_id references))).
Proof.
  induction references as [|r references IH] using rev_ind; [reflexivity|].
  rewrite processPortfolios_snoc, map_set_keys, IH, map_app, rev_app_distr.
  simpl. destruct (decide_rel elem_of (ref_id r) (rev (map ref_id references)))
    as [Hin | Hout].
  - rewrite bool_decide_eq_true_2; [reflexivity|].
    by apply elem_of_first_occurrences.
  - rewrite bool_decide_eq_false_2; [reflexivity|].
    by rewrite elem_of_first_occurrences.
Qed.

Lemma omap_ext_in {A B} (f g : A -> option B) l :
  (forall x, In x l -> f x = g x) -> omap f l = omap g l.
Proof.
  induction l as [|x l IH]; intros H; [reflexivity|].
  assert (Hrest : omap f l = omap g l)
    by (apply IH; intros y Hy; apply H; by right).
  change (match f x with
          | Some y => y :: omap f l
          | None => omap f l
          end
          = match g x with
            | Some y => y :: omap g l
            | None => omap g l
            end).
  by rewrite (H x), Hrest by (by left).
Qed.

Lemma map_values_by_key (m : JsMap) :
  NoDup (map fst m) ->
  Portfolios.map_values Portfolio m
  = omap (fun key => map_get key m) (map fst m).
Proof.
  unfold Portfolios.map_values, Portfolios.map_get.
  induction m as [|[k v] m IH]; simpl; [reflexivity|].
  intros [Hk Hm]%NoDup_cons. rewrite String.eqb_refl. simpl.
  rewrite IH by done. f_equal.
  apply omap_ext_in. intros key Hkey.
  destruct (String.eqb_spec k key) as [-> | _]; [|reflexivity].
  exfalso. by apply Hk, list_elem_of_In.
Qed.

(** X17.  [get(id)] gives the built-in portfolio for the id
    "microsoft-offical", whatever is stored under that id; for any other id
    the portfolio of the last stored reference with that id; and nothing
    for an id that is not stored. *)
Theorem get_resolves references id_ microsoft :
  Portfolios.get PortfolioType Github Portfolio id_ microsoft
    (processPortfolios references)
  = if String.eqb id_ "microsoft-offical" then Some microsoft
    else (fun r => new_GithubPortfolio r fs)
         <$> last_with_id id_ references.
Proof.
  unfold Portfolios.get. simpl.
  destruct (String.eqb id_ "microsoft-offical"); [reflexivity|].
  apply processPortfolios_get.
Qed.

(** X18.  What [portfolios] lists: the built-in portfolio first, then one
    portfolio for each distinct stored id, in the order in which the ids
    first occur, each built from the last reference with that id.  When
    nothing is stored, or what is stored is not an array, only the built-in
    portfolio is listed. *)
Theorem portfolios_listing data microsoft :
  Portfolios.all_portfolios Portfolio microsoft
    (processPortfolios (Portfolios.stored_references PortfolioType data))
  = microsoft
    :: omap
         (fun id_ =>
            (fun r => new_GithubPortfolio r fs)
            <$> last_with_id id_
                  (Portfolios.stored_references PortfolioType data))
         (rev (remove_dups
                 (rev (map ref_id
                         (Portfolios.stored_references PortfolioType
                            data)))))
  /\ Portfolios.all_portfolios Portfolio microsoft
       (processPortfolios (Portfolios.stored_references PortfolioType None))
     = [microsoft]
  /\ Portfolios.all_portfolios Portfolio microsoft
       (processPortfolios
          (Portfolios.stored_references PortfolioType
             (Some {| Portfolios.portfolios :=
                        Portfolios.NotAnArray PortfolioType |})))
     = [microsoft].
Proof.
  split; [|by split].
  unfold Portfolios.all_portfolios. f_equal.
  rewrite map_values_by_key, processPortfolios_keys.
  - apply omap_ext_in. intros key _. apply processPortfolios_get.
  - rewrite processPortfolios_keys.
    apply NoDup_ListNoDup, List.NoDup_rev, NoDup_ListNoDup, NoDup_remove_dups.
Qed.

End PortfolioProperties.

(** Two references with the same id: the later one is listed, in the place
    of the earlier one. *)
Example portfolios_listing_example :
  let a1 := Fixture.reference "a" "https://github.com/x/one" in
  let b := Fixture.reference "b" "https://github.com/x/two" in
  let a2 := Fixture.reference "a" "https://github.com/x/three" in
  let microsoft :=
    Portfolios.microsoft_portfolio unit tt _ unit tt Fixture.build
      (Portfolios.microsoft_source ∅) in
  Portfolios.all_portfolios _ microsoft
    (Portfolios._processPortfolios unit _ unit tt Fixture.build
       (Portfolios.stored_references unit
          (Some {| Portfolios.portfolios :=
                     Portfolios.AnArray unit [a1; b; a2] |})))
  = [Fixture.reference "microsoft-offical"
       "https://github.com/Azure/BatchExplorer-data/tree/master"; a2; b].
Proof. reflexivity. Qed.
